(** * Data quality checking of a daily weather series ([program_09.py])

    A shallow embedding of the four quality checks of [program_09.py] and of
    its loader, together with the properties of the checks.

    - Cells are IEEE 754 binary64 values, in the [spec_float] model of the
      Standard Library: [S754_nan] is NumPy's [nan], the "missing" marker;
      comparisons are [SFltb] and [SFeqb], which are false on [nan].
    - A pandas [DataFrame] with the four named columns is a list of rows;
      the position of a row in the list is its index label (the dates of the
      file, taken to be pairwise distinct).
    - [Series] selected by a boolean mask keep their labels, and a masked
      assignment of a [Series] aligns the value on these labels, as pandas
      does.  Assignments through [DataDF[col][index]] write into the frame
      (the behaviour of pandas without copy-on-write, for which the script
      was written).
    - The table of counts, [ReplacedValuesDF], is a list of rows of counts
      addressed by position, as [.iloc] does. *)

From Stdlib Require Import ZArith Floats.SpecFloat.
From stdpp Require Import base list strings.

(** ** Cells: binary64 floating point numbers *)

Abbreviation float := spec_float.

Definition prec : Z := 53.
Definition emax : Z := 1024.

(** [np.nan] *)
Definition nan : float := S754_nan.

(** An integer literal of the script, converted to binary64 for a comparison
    with a float column. *)
Definition of_int (z : Z) : float := binary_normalize prec emax z 0 false.

(** [x < y], [x > y], [x == y] and [x - y] on cells. *)
Definition flt (x y : float) : bool := SFltb x y.
Definition fgt (x y : float) : bool := SFltb y x.
Definition feq (x y : float) : bool := SFeqb x y.
Definition fsub (x y : float) : float := SFsub prec emax x y.

(** [x >= y] and [x <= y], used to state the order of the two temperatures
    and a spread of at most 25. *)
Definition fge (x y : float) : bool := SFleb y x.
Definition fle (x y : float) : bool := SFleb x y.

(** [Series.isna], on one cell. *)
Definition isna (x : float) : bool :=
  match x with S754_nan => true | _ => false end.

Global Instance float_eq_dec : EqDecision float.
Proof. solve_decision. Defined.

(** ** Frames *)

(** The data columns, [colNames[1:]], in the order of the frame. *)
Inductive Column := Precip | MaxTemp | MinTemp | WindSpeed.

Global Instance Column_eq_dec : EqDecision Column.
Proof. solve_decision. Defined.

Definition columns : list Column := [Precip; MaxTemp; MinTemp; WindSpeed].

(** Position of a column, for [.iloc]. *)
Definition pos (c : Column) : nat :=
  match c with Precip => 0 | MaxTemp => 1 | MinTemp => 2 | WindSpeed => 3 end.

(** One row of a frame with the four columns. *)
Record Row (A : Type) : Type := mkRow {
  precip : A;
  max_temp : A;
  min_temp : A;
  wind_speed : A
}.
Arguments mkRow {A} _ _ _ _.
Arguments precip {A} _.
Arguments max_temp {A} _.
Arguments min_temp {A} _.
Arguments wind_speed {A} _.

Definition cell {A} (c : Column) (r : Row A) : A :=
  match c with
  | Precip => precip r
  | MaxTemp => max_temp r
  | MinTemp => min_temp r
  | WindSpeed => wind_speed r
  end.

Definition set_cell {A} (c : Column) (v : A) (r : Row A) : Row A :=
  match c with
  | Precip => mkRow v (max_temp r) (min_temp r) (wind_speed r)
  | MaxTemp => mkRow (precip r) v (min_temp r) (wind_speed r)
  | MinTemp => mkRow (precip r) (max_temp r) v (wind_speed r)
  | WindSpeed => mkRow (precip r) (max_temp r) (min_temp r) v
  end.

Definition row_map {A B} (f : A → B) (r : Row A) : Row B :=
  mkRow (f (precip r)) (f (max_temp r)) (f (min_temp r)) (f (wind_speed r)).

Definition row_zip {A B C} (f : A → B → C) (r : Row A) (s : Row B) : Row C :=
  mkRow (f (precip r) (precip s)) (f (max_temp r) (max_temp s))
        (f (min_temp r) (min_temp s)) (f (wind_speed r) (wind_speed s)).

Global Instance Row_eq_dec {A} `{EqDecision A} : EqDecision (Row A).
Proof. solve_decision. Defined.

Abbreviation DataFrame := (list (Row float)).
Abbreviation Series := (list float).
Abbreviation Mask := (list bool).

(** A [Series] cut out by a mask: the kept values with their labels. *)
Abbreviation SubSeries := (list (nat * float)).

(** [DataDF[c]] and [DataDF.iloc[:,i]] *)
Definition getitem (c : Column) (DataDF : DataFrame) : Series :=
  cell c <$> DataDF.

(** [s < k], [s > k] for a scalar [k], [s < t], [s - t], [m | n] *)
Definition lt_scalar (s : Series) (k : float) : Mask := (λ x, flt x k) <$> s.
Definition gt_scalar (s : Series) (k : float) : Mask := (λ x, fgt x k) <$> s.
Definition lt_series (s t : Series) : Mask := zip_with flt s t.
Definition sub_series (s t : Series) : Series := zip_with fsub s t.
Definition mask_or (m n : Mask) : Mask := zip_with orb m n.

(** [index.sum()]: the number of [True] in a mask. *)
Definition mask_sum (index : Mask) : nat := sum_list (Nat.b2n <$> index).

(** [s.isna().sum()] *)
Definition isna_sum (s : Series) : nat := mask_sum (isna <$> s).

(** [s[index]] on the right of an assignment: a copy of the selected values,
    each with its label.  [k] is the label of the first value of [s]. *)
Fixpoint select_from (k : nat) (s : Series) (index : Mask) : SubSeries :=
  match s, index with
  | x :: s', b :: index' =>
      (if b then [(k, x)] else []) ++ select_from (S k) s' index'
  | _, _ => []
  end.

Definition getitem_mask (s : Series) (index : Mask) : SubSeries :=
  select_from 0 s index.

(** The value of a cut-out [Series] at a label, after alignment: [nan] when
    the label is absent. *)
Fixpoint loc (k : nat) (sub : SubSeries) : float :=
  match sub with
  | [] => nan
  | (j, x) :: sub' => if Nat.eqb j k then x else loc k sub'
  end.

(** [DataDF[c][index] = value]: the rows selected by the mask receive, in
    column [c], the value for their label. *)
Fixpoint setitem_from (k : nat) (c : Column) (index : Mask)
    (value : nat → float) (DataDF : DataFrame) : DataFrame :=
  match DataDF, index with
  | r :: DataDF', b :: index' =>
      (if b then set_cell c (value k) r else r)
        :: setitem_from (S k) c index' value DataDF'
  | _, _ => DataDF
  end.

(** [DataDF[c][index] = v] for a scalar [v] *)
Definition setitem_scalar (c : Column) (index : Mask) (v : float)
    (DataDF : DataFrame) : DataFrame :=
  setitem_from 0 c index (λ _, v) DataDF.

(** [DataDF[c][index] = sub] for a cut-out [Series] [sub] *)
Definition setitem_series (c : Column) (index : Mask) (sub : SubSeries)
    (DataDF : DataFrame) : DataFrame :=
  setitem_from 0 c index (λ k, loc k sub) DataDF.

(** [DataDF == k]: a frame of booleans. *)
Definition eq_scalar_frame (DataDF : DataFrame) (k : float) : list (Row bool) :=
  row_map (λ x, feq x k) <$> DataDF.

(** [DataDF[mask] = v] for a frame of booleans [mask] *)
Definition setitem_frame (mask : list (Row bool)) (v : float)
    (DataDF : DataFrame) : DataFrame :=
  zip_with (row_zip (λ (b : bool) x, if b then v else x)) mask DataDF.

(** ** The table of counts *)

Abbreviation Ledger := (list (list nat)).

(** [ReplacedValuesDF.iloc[r,c] = v].  The positions of the script are
    literals inside the 4 x 4 table; outside a table pandas raises
    [IndexError], and the model leaves the table as it is. *)
Definition iloc_set (r c : nat) (v : nat) (ReplacedValuesDF : Ledger) : Ledger :=
  alter (λ row, <[c := v]> row) r ReplacedValuesDF.

(** [ReplacedValuesDF.iloc[r,c]] *)
Definition iloc (r c : nat) (ReplacedValuesDF : Ledger) : option nat :=
  ReplacedValuesDF !! r ≫= (λ row, row !! c).

(** The table as [ReadData] creates it: four rows ("1. No Data",
    "2. Gross Error", "3. Swapped", "4. Range Fail") by four columns of
    zeros. *)
Definition zero_ledger : Ledger := replicate 4 (replicate 4 0).

(** ** The loader *)

Section Loader.

(** [pd.read_csv] with the options of the script, followed by
    [set_index('Date')]: the frame parsed from the file of the given name,
    or nothing when the file cannot be read or parsed. *)
Variable read_csv : string → option DataFrame.

Definition ReadData (fileName : string) : option (DataFrame * Ledger) :=
  DataDF ← read_csv "DataQualityChecking.txt";
  Some (DataDF, zero_ledger).

End Loader.

(** ** The four checks *)

Definition Check01_RemoveNoDataValues (DataDF : DataFrame)
    (ReplacedValuesDF : Ledger) : DataFrame * Ledger :=
  let DataDF := setitem_frame (eq_scalar_frame DataDF (of_int (-999))) nan DataDF in
  (DataDF, ReplacedValuesDF).

(** The statements of [Check01_RemoveNoDataValues] that follow its first
    [return]; they are never executed. *)
Definition Check01_after_return (DataDF : DataFrame)
    (ReplacedValuesDF : Ledger) : DataFrame * Ledger :=
  let ReplacedValuesDF :=
    foldl (λ L i,
             match columns !! i with
             | Some c => iloc_set 0 i (isna_sum (getitem c DataDF)) L
             | None => L
             end)
          ReplacedValuesDF (seq 0 4) in
  (DataDF, ReplacedValuesDF).

Definition Check02_GrossErrors (DataDF : DataFrame)
    (ReplacedValuesDF : Ledger) : DataFrame * Ledger :=
  let index := mask_or (lt_scalar (getitem Precip DataDF) (of_int 0))
                       (gt_scalar (getitem Precip DataDF) (of_int 25)) in
  let ReplacedValuesDF := iloc_set 1 0 (mask_sum index) ReplacedValuesDF in
  let DataDF := setitem_scalar Precip index nan DataDF in
  let '(DataDF, ReplacedValuesDF) :=
    foldl (λ '(DataDF, ReplacedValuesDF) i,
             match columns !! i with
             | Some c =>
                 let index := mask_or (lt_scalar (getitem c DataDF) (of_int (-25)))
                                      (gt_scalar (getitem c DataDF) (of_int 35)) in
                 let ReplacedValuesDF := iloc_set 1 i (mask_sum index) ReplacedValuesDF in
                 let DataDF := setitem_scalar c index nan DataDF in
                 (DataDF, ReplacedValuesDF)
             | None => (DataDF, ReplacedValuesDF)
             end)
          (DataDF, ReplacedValuesDF) (seq 1 2) in
  let index := mask_or (lt_scalar (getitem WindSpeed DataDF) (of_int 0))
                       (gt_scalar (getitem WindSpeed DataDF) (of_int 10)) in
  let ReplacedValuesDF := iloc_set 1 3 (mask_sum index) ReplacedValuesDF in
  let DataDF := setitem_scalar WindSpeed index nan DataDF in
  (DataDF, ReplacedValuesDF).

(** The mask [index] of [Check03_TmaxTminSwapped]. *)
Definition Check03_index (DataDF : DataFrame) : Mask :=
  lt_series (getitem MaxTemp DataDF) (getitem MinTemp DataDF).

Definition Check03_TmaxTminSwapped (DataDF : DataFrame)
    (ReplacedValuesDF : Ledger) : DataFrame * Ledger :=
  let index := Check03_index DataDF in
  let ReplacedValuesDF := iloc_set 2 1 (mask_sum index) ReplacedValuesDF in
  let ReplacedValuesDF := iloc_set 2 2 (mask_sum index) ReplacedValuesDF in
  (* the right-hand side is evaluated before either assignment *)
  let rhs1 := getitem_mask (getitem MinTemp DataDF) index in
  let rhs2 := getitem_mask (getitem MaxTemp DataDF) index in
  let DataDF := setitem_series MaxTemp index rhs1 DataDF in
  let DataDF := setitem_series MinTemp index rhs2 DataDF in
  (DataDF, ReplacedValuesDF).

(** The mask [index] of [Check04_TmaxTminRange]. *)
Definition Check04_index (DataDF : DataFrame) : Mask :=
  gt_scalar (sub_series (getitem MaxTemp DataDF) (getitem MinTemp DataDF))
            (of_int 25).

Definition Check04_TmaxTminRange (DataDF : DataFrame)
    (ReplacedValuesDF : Ledger) : DataFrame * Ledger :=
  let index := Check04_index DataDF in
  let ReplacedValuesDF := iloc_set 3 1 (mask_sum index) ReplacedValuesDF in
  let ReplacedValuesDF := iloc_set 3 2 (mask_sum index) ReplacedValuesDF in
  let DataDF := setitem_scalar MaxTemp index nan DataDF in
  let DataDF := setitem_scalar MinTemp index nan DataDF in
  (DataDF, ReplacedValuesDF).

(** ** The driver *)

(** The four checks in the order of the script, each on the frame and the
    table left by the one before. *)
Definition run_checks (DataDF : DataFrame) (ReplacedValuesDF : Ledger)
    : DataFrame * Ledger :=
  let '(DataDF, ReplacedValuesDF) := Check01_RemoveNoDataValues DataDF ReplacedValuesDF in
  let '(DataDF, ReplacedValuesDF) := Check02_GrossErrors DataDF ReplacedValuesDF in
  let '(DataDF, ReplacedValuesDF) := Check03_TmaxTminSwapped DataDF ReplacedValuesDF in
  Check04_TmaxTminRange DataDF ReplacedValuesDF.

Section Driver.

Variable read_csv : string → option DataFrame.

(** The script's main block up to the plots: the corrected frame, the
    frame loaded a second time as the original, and the table. *)
Definition main : option (DataFrame * DataFrame * Ledger) :=
  let fileName := "DataQualityChecking.txt" in
  '(DataDF, ReplacedValuesDF) ← ReadData read_csv fileName;
  let '(DataDF, ReplacedValuesDF) := run_checks DataDF ReplacedValuesDF in
  let CorrectedDataDF := DataDF in
  '(OriginalDataDF, _) ← ReadData read_csv fileName;
  Some (CorrectedDataDF, OriginalDataDF, ReplacedValuesDF).

End Driver.

(** * Notions used in the statements *)

(** The number of elements of a list that satisfy a test. *)
Definition count {A} (P : A → bool) (l : list A) : nat :=
  length (List.filter P l).

(** Check 1 on one cell. *)
Definition no_data (x : float) : bool := feq x (of_int (-999)).
Definition check01_cell (x : float) : float := if no_data x then nan else x.

(** Check 2 on one row: the test of one column against its two bounds, and
    the replacement of the cell that fails it. *)
Definition gross (c : Column) (lo hi : Z) (r : Row float) : bool :=
  flt (cell c r) (of_int lo) || fgt (cell c r) (of_int hi).
Definition gross_fix (c : Column) (lo hi : Z) (r : Row float) : Row float :=
  if gross c lo hi r then set_cell c nan r else r.
Definition check02_row (r : Row float) : Row float :=
  gross_fix WindSpeed 0 10
    (gross_fix MinTemp (-25) 35 (gross_fix MaxTemp (-25) 35 (gross_fix Precip 0 25 r))).

(** Check 3 on one row. *)
Definition swapped (r : Row float) : bool := flt (max_temp r) (min_temp r).
Definition check03_row (r : Row float) : Row float :=
  if swapped r then mkRow (precip r) (min_temp r) (max_temp r) (wind_speed r) else r.

(** Check 4 on one row. *)
Definition spread (r : Row float) : float := fsub (max_temp r) (min_temp r).
Definition range_fail (r : Row float) : bool := fgt (spread r) (of_int 25).
Definition check04_row (r : Row float) : Row float :=
  if range_fail r then mkRow (precip r) nan nan (wind_speed r) else r.

(** [ReplacedValuesDF.shape], as the list of the lengths of the rows. *)
Definition shape (ReplacedValuesDF : Ledger) : list nat :=
  length <$> ReplacedValuesDF.

(** The sum of one row of the table. *)
Definition row_sum (r : nat) (ReplacedValuesDF : Ledger) : nat :=
  sum_list (default [] (ReplacedValuesDF !! r)).

(** Two cells differ; [nan] does not differ from [nan]. *)
Definition cell_changed (x y : float) : bool := bool_decide (x ≠ y).

(** The number of cells of a column that differ between two frames. *)
Definition col_mutations (c : Column) (D D' : DataFrame) : nat :=
  mask_sum (zip_with (λ r r', cell_changed (cell c r) (cell c r')) D D').

(** The number of cells that differ between two frames. *)
Definition mutations (D D' : DataFrame) : nat :=
  sum_list ((λ c, col_mutations c D D') <$> columns).

(** The number of missing values of a column. *)
Definition missing (c : Column) (D : DataFrame) : nat :=
  isna_sum (getitem c D).

(** The admissible range of each variable, as the specification tabulates
    it: precip [0, 25], max_temp and min_temp [-25, 35], wind_speed
    [0, 10]. *)
Definition spec_range (c : Column) : Z * Z :=
  match c with
  | Precip => (0, 25)
  | MaxTemp => (-25, 35)
  | MinTemp => (-25, 35)
  | WindSpeed => (0, 10)
  end%Z.

(** A value strictly outside the admissible range of its variable. *)
Definition outside (c : Column) (x : float) : bool :=
  flt x (of_int (spec_range c).1) || fgt x (of_int (spec_range c).2).

(** The number of cells of a column that are present in the first frame and
    missing in the second. *)
Definition replaced (c : Column) (D D' : DataFrame) : nat :=
  mask_sum (zip_with (λ r r', negb (isna (cell c r)) && isna (cell c r')) D D').

(** Both temperatures of a row are present. *)
Definition both_present (r : Row float) : bool :=
  negb (isna (max_temp r)) && negb (isna (min_temp r)).

(** A small frame: the two scenario rows of the specification
    ([-999 10 20 5] and a row with [max_temp = 40], [min_temp = 0]), a row at
    the bounds of the ranges with a spread of 50, and a row with a missing
    maximum. *)
Definition sample_frame : DataFrame :=
  [ mkRow (of_int (-999)) (of_int 10) (of_int 20) (of_int 5);
    mkRow (of_int 0) (of_int 40) (of_int 0) (of_int 11);
    mkRow (of_int 25) (of_int 30) (of_int (-20)) (of_int 10);
    mkRow (of_int 26) nan (of_int (-20)) (of_int (-1)) ].

(** The scenario row of the specification, [2020-01-01 -999 10 20 5], as a
    frame of one row. *)
Definition scenario_frame : DataFrame :=
  [ mkRow (of_int (-999)) (of_int 10) (of_int 20) (of_int 5) ].

(** The frames and tables after each check of the driver. *)
Definition stage1 (D : DataFrame) (L : Ledger) : DataFrame * Ledger :=
  Check01_RemoveNoDataValues D L.
Definition stage2 (D : DataFrame) (L : Ledger) : DataFrame * Ledger :=
  Check02_GrossErrors (stage1 D L).1 (stage1 D L).2.
Definition stage3 (D : DataFrame) (L : Ledger) : DataFrame * Ledger :=
  Check03_TmaxTminSwapped (stage2 D L).1 (stage2 D L).2.
Definition stage4 (D : DataFrame) (L : Ledger) : DataFrame * Ledger :=
  Check04_TmaxTminRange (stage3 D L).1 (stage3 D L).2.

(** The checks, by the position of their row in the table. *)
Definition checks : list (DataFrame → Ledger → DataFrame * Ledger) :=
  [ Check01_RemoveNoDataValues; Check02_GrossErrors;
    Check03_TmaxTminSwapped; Check04_TmaxTminRange ].

(** Every value missing in a frame is missing, in the same row and column,
    in the other. *)
Definition keeps_missing (D D' : DataFrame) : Prop :=
  length D' = length D
  ∧ ∀ c i r, D !! i = Some r → isna (cell c r) = true →
      ∃ r', D' !! i = Some r' ∧ isna (cell c r') = true.

(** The four checks of the driver on one row. *)
Definition pipeline_row (r : Row float) : Row float :=
  check04_row (check03_row (check02_row (row_map check01_cell r))).

(** The column that Check 3 exchanges with a column. *)
Definition swap_col (c : Column) : Column :=
  match c with
  | MaxTemp => MinTemp
  | MinTemp => MaxTemp
  | Precip => Precip
  | WindSpeed => WindSpeed
  end.

(** A row on which no check has anything to do: no cell is -999 or outside
    its range, the temperatures are not in the wrong order and their spread
    is not above 25. *)
Definition clean (r : Row float) : Prop :=
  (∀ c, no_data (cell c r) = false)
  ∧ (∀ c, outside c (cell c r) = false)
  ∧ swapped r = false
  ∧ range_fail r = false.

(** A file system that holds the data file only, with the given frame. *)
Definition only_data_file (D : DataFrame) (f : string) : option DataFrame :=
  if decide (f = "DataQualityChecking.txt") then Some D else None.

(** * Properties *)

(** ** Comparisons of binary64 values *)

Section FloatFacts.

Lemma SFcompare_antisym (x y : float) (c : comparison) :
  SFcompare x y = Some c → SFcompare y x = Some (CompOpp c).
Proof.
  destruct x as [sx|sx| |sx mx ex], y as [sy|sy| |sy my ey]; simpl;
    try discriminate;
    try (intros [= <-]; (try destruct sx); (try destruct sy); reflexivity).
  intros [= <-]. f_equal.
  destruct sx, sy; try reflexivity;
    rewrite (Z.compare_antisym ex ey);
    destruct (ex ?= ey)%Z; simpl; try reflexivity;
    change (Pos.compare_cont Eq my mx) with (my ?= mx)%positive;
    change (Pos.compare_cont Eq mx my) with (mx ?= my)%positive;
    rewrite (Pos.compare_antisym mx my);
    destruct (mx ?= my)%positive; reflexivity.
Qed.

Lemma SFcompare_refl (x : float) : SFcompare x x ≠ Some Lt.
Proof.
  destruct x as [s|s| |s m e]; simpl; try discriminate.
  - destruct s; discriminate.
  - destruct s; rewrite Z.compare_refl;
      change (Pos.compare_cont Eq m m) with (m ?= m)%positive;
      rewrite Pos.compare_refl; discriminate.
Qed.

Lemma SFcompare_present (x y : float) :
  isna x = false → isna y = false → is_Some (SFcompare x y).
Proof. destruct x, y; simpl; intros; try discriminate; eauto. Qed.

Lemma flt_present (x y : float) :
  flt x y = true → isna x = false ∧ isna y = false.
Proof. destruct x, y; simpl; try discriminate; auto. Qed.

Lemma flt_irrefl (x : float) : flt x x = false.
Proof.
  unfold flt, SFltb. pose proof (SFcompare_refl x) as H.
  destruct (SFcompare x x) as [[]|]; congruence.
Qed.

Lemma flt_neq (x y : float) : flt x y = true → x ≠ y.
Proof. intros H ->. rewrite flt_irrefl in H. discriminate. Qed.

Lemma flt_fge (x y : float) : flt x y = true → fge y x = true.
Proof.
  unfold flt, fge, SFltb, SFleb.
  destruct (SFcompare x y) as [[]|]; congruence.
Qed.

Lemma not_flt_fge (x y : float) :
  isna x = false → isna y = false → flt x y = false → fge x y = true.
Proof.
  intros Hx Hy. unfold flt, fge, SFltb, SFleb.
  destruct (SFcompare_present x y Hx Hy) as [c Hc].
  rewrite Hc, (SFcompare_antisym _ _ _ Hc).
  destruct c; simpl; congruence.
Qed.

Lemma fle_not_fgt (x y : float) : fle x y = true → fgt x y = false.
Proof.
  unfold fle, fgt, SFltb, SFleb.
  destruct (SFcompare x y) as [c|] eqn:Hc; [|discriminate].
  rewrite (SFcompare_antisym _ _ _ Hc). destruct c; simpl; congruence.
Qed.

Lemma fsub_present (x y k : float) :
  fgt (fsub x y) k = true → isna x = false ∧ isna y = false.
Proof.
  intros H. apply flt_present in H as [_ H].
  destruct x, y; simpl in *; try discriminate; auto.
Qed.

Lemma feq_present (x k : float) : feq x k = true → isna x = false.
Proof. destruct x, k; simpl; try discriminate; auto. Qed.

Lemma isna_nan (x : float) : isna x = true ↔ x = nan.
Proof. destruct x; simpl; split; try discriminate; auto. Qed.

End FloatFacts.

(** ** Masks, selections and masked assignments *)

Section Masks.

Lemma mask_sum_fmap {A} (P : A → bool) (l : list A) :
  mask_sum (P <$> l) = count P l.
Proof.
  induction l as [|x l IH]; [done|].
  change (mask_sum (P <$> x :: l)) with (Nat.b2n (P x) + mask_sum (P <$> l)).
  rewrite IH. unfold count. simpl. by destruct (P x).
Qed.

Lemma count_ext {A} (P Q : A → bool) (l : list A) :
  (∀ x, P x = Q x) → count P l = count Q l.
Proof.
  intros H. unfold count. induction l as [|x l IH]; simpl; [done|].
  rewrite H. destruct (Q x); simpl; congruence.
Qed.

Lemma count_fmap {A B} (f : A → B) (P : B → bool) (l : list A) :
  count P (f <$> l) = count (P ∘ f) l.
Proof.
  unfold count. induction l as [|x l IH]; simpl; [done|].
  unfold compose in *. destruct (P (f x)); simpl; [f_equal|]; exact IH.
Qed.

Lemma count_le {A} (P Q : A → bool) (l : list A) :
  (∀ x, P x = true → Q x = true) → count P l ≤ count Q l.
Proof.
  intros H. unfold count. induction l as [|x l IH]; simpl; [done|].
  destruct (P x) eqn:HP.
  - rewrite (H x HP). simpl. lia.
  - destruct (Q x); simpl; lia.
Qed.

Lemma count_none {A} (P : A → bool) (l : list A) :
  (∀ x, P x = false) → count P l = 0.
Proof.
  intros H. unfold count. induction l as [|x l IH]; simpl; [done|].
  by rewrite H.
Qed.

Lemma lt_scalar_getitem c k D :
  lt_scalar (getitem c D) k = (λ r, flt (cell c r) k) <$> D.
Proof. unfold lt_scalar, getitem. by rewrite <- list_fmap_compose. Qed.

Lemma gt_scalar_getitem c k D :
  gt_scalar (getitem c D) k = (λ r, fgt (cell c r) k) <$> D.
Proof. unfold gt_scalar, getitem. by rewrite <- list_fmap_compose. Qed.

Lemma zip_with_fmap_same {A B C E} (f : B → C → E) (g : A → B) (h : A → C)
    (l : list A) :
  zip_with f (g <$> l) (h <$> l) = (λ x, f (g x) (h x)) <$> l.
Proof. induction l as [|x l IH]; simpl; [done|]. f_equal. exact IH. Qed.

Lemma lookup_setitem_from k c index value (D : DataFrame) i :
  setitem_from k c index value D !! i =
    (λ r, if default false (index !! i)
          then set_cell c (value (k + i)) r else r) <$> D !! i.
Proof.
  revert k index i. induction D as [|r D IH]; intros k index i.
  - by destruct index.
  - destruct index as [|b index].
    + simpl. by destruct (_ !! i).
    + destruct i as [|i]; simpl.
      * by rewrite Nat.add_0_r.
      * rewrite IH. by replace (S k + i) with (k + S i) by lia.
Qed.

Lemma loc_select_from (s : Series) (index : Mask) k i x :
  s !! i = Some x → index !! i = Some true →
  loc (k + i) (select_from k s index) = x.
Proof.
  revert index k i. induction s as [|y s IH]; intros index k i Hs Hi.
  - by rewrite lookup_nil in Hs.
  - destruct index as [|b index]; [by rewrite lookup_nil in Hi|].
    destruct i as [|i]; simpl in *.
    + injection Hs as ->. injection Hi as ->. simpl.
      by rewrite Nat.add_0_r, Nat.eqb_refl.
    + replace (k + S i) with (S k + i) by lia.
      destruct b; simpl.
      * replace (k =? S (k + i)) with false
          by (symmetry; apply Nat.eqb_neq; lia).
        exact (IH index (S k) i Hs Hi).
      * exact (IH index (S k) i Hs Hi).
Qed.

(** A scalar assigned through a mask computed from the rows themselves. *)
Lemma setitem_scalar_fmap c (f : Row float → bool) v (g : Row float → Row float)
    (D : DataFrame) :
  setitem_scalar c (f <$> D) v (g <$> D) =
    (λ r, if f r then set_cell c v (g r) else g r) <$> D.
Proof.
  apply list_eq. intros i. unfold setitem_scalar.
  rewrite lookup_setitem_from, !list_lookup_fmap.
  by destruct (D !! i).
Qed.

(** A column of the frame assigned, through a mask computed from the rows,
    the selection by the same mask of a column of an earlier frame. *)
Lemma setitem_series_fmap c c' (f : Row float → bool)
    (g : Row float → Row float) (D : DataFrame) :
  setitem_series c (f <$> D) (getitem_mask (getitem c' D) (f <$> D)) (g <$> D) =
    (λ r, if f r then set_cell c (cell c' r) (g r) else g r) <$> D.
Proof.
  apply list_eq. intros i. unfold setitem_series, getitem_mask, getitem.
  rewrite lookup_setitem_from, !list_lookup_fmap.
  destruct (D !! i) as [r|] eqn:Hr; simpl; [|done].
  destruct (f r) eqn:Hf; [|done].
  rewrite (loc_select_from _ _ 0 i (cell c' r)); [done| |].
  - by rewrite list_lookup_fmap, Hr.
  - by rewrite list_lookup_fmap, Hr; simpl; rewrite Hf.
Qed.

Lemma setitem_scalar_id c (f : Row float → bool) v (D : DataFrame) :
  setitem_scalar c (f <$> D) v D =
    (λ r, if f r then set_cell c v r else r) <$> D.
Proof.
  pose proof (setitem_scalar_fmap c f v id D) as H.
  by rewrite list_fmap_id in H.
Qed.

Lemma setitem_series_id c c' (f : Row float → bool) (D : DataFrame) :
  setitem_series c (f <$> D) (getitem_mask (getitem c' D) (f <$> D)) D =
    (λ r, if f r then set_cell c (cell c' r) r else r) <$> D.
Proof.
  pose proof (setitem_series_fmap c c' f id D) as H.
  by rewrite list_fmap_id in H.
Qed.

End Masks.

(** ** The checks, row by row

    Each check acts on every row of the frame on its own: the frame it
    returns is the image of the frame it receives under a function on rows,
    and the counts it writes are numbers of rows. *)

Section RowByRow.

Lemma Check01_eq D L :
  Check01_RemoveNoDataValues D L = (row_map check01_cell <$> D, L).
Proof.
  unfold Check01_RemoveNoDataValues, setitem_frame, eq_scalar_frame.
  f_equal. rewrite <- (list_fmap_id D) at 2.
  rewrite zip_with_fmap_same. apply list_fmap_ext. intros i [p a b w] _. reflexivity.
Qed.

Lemma gross_index c lo hi D :
  mask_or (lt_scalar (getitem c D) (of_int lo)) (gt_scalar (getitem c D) (of_int hi))
  = gross c lo hi <$> D.
Proof.
  unfold mask_or. by rewrite lt_scalar_getitem, gt_scalar_getitem, zip_with_fmap_same.
Qed.

Lemma gross_assign c lo hi D :
  setitem_scalar c
    (mask_or (lt_scalar (getitem c D) (of_int lo))
             (gt_scalar (getitem c D) (of_int hi))) nan D
  = gross_fix c lo hi <$> D.
Proof.
  by rewrite gross_index, setitem_scalar_id.
Qed.

Lemma gross_count c lo hi D :
  mask_sum (mask_or (lt_scalar (getitem c D) (of_int lo))
                    (gt_scalar (getitem c D) (of_int hi)))
  = count (gross c lo hi) D.
Proof. by rewrite gross_index, mask_sum_fmap. Qed.

Lemma gross_other c c' lo hi lo' hi' r :
  c ≠ c' → gross c lo hi (gross_fix c' lo' hi' r) = gross c lo hi r.
Proof.
  intros Hc. unfold gross_fix, gross.
  destruct (flt (cell c' r) (of_int lo') || fgt (cell c' r) (of_int hi'));
    [|done].
  by destruct c, c', r.
Qed.

Lemma Check02_eq D L :
  Check02_GrossErrors D L =
    (check02_row <$> D,
     iloc_set 1 3 (count (gross WindSpeed 0 10) D)
       (iloc_set 1 2 (count (gross MinTemp (-25) 35) D)
          (iloc_set 1 1 (count (gross MaxTemp (-25) 35) D)
             (iloc_set 1 0 (count (gross Precip 0 25) D) L)))).
Proof.
  unfold Check02_GrossErrors. cbn [foldl seq lookup list_lookup columns].
  rewrite !gross_assign, !gross_count, <- !list_fmap_compose, !count_fmap.
  f_equal.
  repeat match goal with
         | |- iloc_set _ _ _ _ = iloc_set _ _ _ _ => f_equal
         end;
    apply count_ext; intros r; unfold compose;
    by rewrite ?gross_other by done.
Qed.

Lemma Check03_index_eq D : Check03_index D = swapped <$> D.
Proof. unfold Check03_index, lt_series, getitem. by rewrite zip_with_fmap_same. Qed.

Lemma Check03_eq D L :
  Check03_TmaxTminSwapped D L =
    (check03_row <$> D,
     iloc_set 2 2 (count swapped D) (iloc_set 2 1 (count swapped D) L)).
Proof.
  unfold Check03_TmaxTminSwapped.
  rewrite Check03_index_eq, mask_sum_fmap. f_equal.
  rewrite (setitem_series_id MaxTemp MinTemp).
  rewrite (setitem_series_fmap MinTemp MaxTemp).
  apply list_fmap_ext. intros i [p a b w] _. unfold check03_row.
  by destruct (swapped _).
Qed.

Lemma Check04_index_eq D : Check04_index D = range_fail <$> D.
Proof.
  unfold Check04_index, sub_series, gt_scalar, getitem.
  by rewrite zip_with_fmap_same, <- list_fmap_compose.
Qed.

Lemma Check04_eq D L :
  Check04_TmaxTminRange D L =
    (check04_row <$> D,
     iloc_set 3 2 (count range_fail D) (iloc_set 3 1 (count range_fail D) L)).
Proof.
  unfold Check04_TmaxTminRange.
  rewrite Check04_index_eq, mask_sum_fmap. f_equal.
  rewrite setitem_scalar_id, setitem_scalar_fmap.
  apply list_fmap_ext. intros i [p a b w] _. unfold check04_row.
  by destruct (range_fail _).
Qed.

End RowByRow.

(** ** The table of counts: shape, reads and writes *)

Section LedgerFacts.

Lemma shape_4x4 (L : Ledger) :
  shape L = [4; 4; 4; 4] →
  ∃ a0 a1 a2 a3 b0 b1 b2 b3 c0 c1 c2 c3 d0 d1 d2 d3,
    L = [[a0; a1; a2; a3]; [b0; b1; b2; b3];
         [c0; c1; c2; c3]; [d0; d1; d2; d3]].
Proof.
  unfold shape. intros H.
  destruct L as [|[|a0 [|a1 [|a2 [|a3 [|]]]]] L]; try discriminate.
  destruct L as [|[|b0 [|b1 [|b2 [|b3 [|]]]]] L]; try discriminate.
  destruct L as [|[|c0 [|c1 [|c2 [|c3 [|]]]]] L]; try discriminate.
  destruct L as [|[|d0 [|d1 [|d2 [|d3 [|]]]]] L]; try discriminate.
  destruct L; try discriminate.
  by do 16 eexists.
Qed.

Lemma shape_zero_ledger : shape zero_ledger = [4; 4; 4; 4].
Proof. reflexivity. Qed.

Lemma shape_iloc_set r c v (L : Ledger) : shape (iloc_set r c v L) = shape L.
Proof.
  unfold shape, iloc_set. apply list_eq. intros i.
  rewrite !list_lookup_fmap, list_lookup_alter.
  destruct (decide (r = i)) as [->|]; [|done].
  destruct (L !! i); simpl; [|done]. by rewrite length_insert.
Qed.

(** A write touches one row only. *)
Lemma iloc_set_other_row r c v (L : Ledger) j :
  j ≠ r → iloc_set r c v L !! j = L !! j.
Proof. intros H. unfold iloc_set. by rewrite list_lookup_alter_ne. Qed.

Lemma iloc_set_other_cell r c v (L : Ledger) r' c' :
  (r', c') ≠ (r, c) → iloc r' c' (iloc_set r c v L) = iloc r' c' L.
Proof.
  intros H. unfold iloc, iloc_set. rewrite list_lookup_alter.
  destruct (decide (r = r')) as [->|]; [|done].
  destruct (L !! r') as [row|]; simpl; [|done].
  apply list_lookup_insert_ne. congruence.
Qed.

Lemma iloc_set_same r c v (L : Ledger) :
  is_Some (iloc r c L) → iloc r c (iloc_set r c v L) = Some v.
Proof.
  unfold iloc, iloc_set. rewrite list_lookup_alter_eq.
  destruct (L !! r) as [row|]; simpl; [|by intros [? ?]].
  intros H. apply list_lookup_insert_eq. by apply lookup_lt_is_Some.
Qed.

Lemma iloc_is_Some (L : Ledger) r c :
  shape L = [4; 4; 4; 4] → r < 4 → c < 4 → is_Some (iloc r c L).
Proof.
  intros H Hr Hc.
  destruct (shape_4x4 L H)
    as (a0&a1&a2&a3&b0&b1&b2&b3&c0&c1&c2&c3&d0&d1&d2&d3&->).
  destruct r as [|[|[|[|]]]], c as [|[|[|[|]]]]; simpl; eauto; lia.
Qed.

End LedgerFacts.

(** ** Mutations of the frame *)

Section Mutations.

Lemma col_mutations_fmap c (f : Row float → Row float) (D : DataFrame) :
  col_mutations c D (f <$> D) =
    count (λ r, cell_changed (cell c r) (cell c (f r))) D.
Proof.
  unfold col_mutations. rewrite <- (list_fmap_id D) at 1.
  by rewrite zip_with_fmap_same, mask_sum_fmap.
Qed.

Lemma missing_count c (D : DataFrame) :
  missing c D = count (λ r, isna (cell c r)) D.
Proof.
  unfold missing, isna_sum, getitem.
  by rewrite <- list_fmap_compose, mask_sum_fmap.
Qed.

Lemma cell_changed_same x : cell_changed x x = false.
Proof. unfold cell_changed. by rewrite bool_decide_eq_false; intros []. Qed.

Lemma cell_changed_nan x : isna x = false → cell_changed x nan = true.
Proof.
  intros H. unfold cell_changed. rewrite bool_decide_eq_true.
  intros ->. discriminate.
Qed.

End Mutations.

(** ** What each check does to a cell *)

Section Cells.

Lemma cell_set_cell_same {A} c (v : A) r : cell c (set_cell c v r) = v.
Proof. by destruct c. Qed.

Lemma cell_set_cell_other {A} c c' (v : A) r :
  c ≠ c' → cell c (set_cell c' v r) = cell c r.
Proof. by destruct c, c'. Qed.

Lemma cell_row_map {A B} (f : A → B) c r : cell c (row_map f r) = f (cell c r).
Proof. by destruct c. Qed.

Lemma outside_present c x : outside c x = true → isna x = false.
Proof.
  unfold outside. intros [H|H]%orb_true_iff; by apply flt_present in H as [? ?].
Qed.

Lemma check01_cell_nan x : isna x = true → isna (check01_cell x) = true.
Proof. unfold check01_cell. by destruct (no_data x). Qed.

Lemma check01_cell_idem x : check01_cell (check01_cell x) = check01_cell x.
Proof. unfold check01_cell. by destruct (no_data x) eqn:H; [|rewrite H]. Qed.

Lemma cell_gross_fix_same c lo hi r :
  cell c (gross_fix c lo hi r) = if gross c lo hi r then nan else cell c r.
Proof.
  unfold gross_fix. destruct (gross c lo hi r); [|done].
  apply cell_set_cell_same.
Qed.

Lemma cell_gross_fix_other c c' lo hi r :
  c ≠ c' → cell c (gross_fix c' lo hi r) = cell c r.
Proof.
  intros H. unfold gross_fix. destruct (gross c' lo hi r); [|done].
  by apply cell_set_cell_other.
Qed.

Lemma check02_cell c r :
  cell c (check02_row r) = if outside c (cell c r) then nan else cell c r.
Proof.
  unfold check02_row.
  destruct c;
    repeat first [ rewrite cell_gross_fix_other by done
                 | rewrite cell_gross_fix_same
                 | rewrite gross_other by done ];
    reflexivity.
Qed.

Lemma check03_cell_nan c r :
  isna (cell c r) = true → isna (cell c (check03_row r)) = true.
Proof.
  unfold check03_row, swapped.
  destruct (flt (max_temp r) (min_temp r)) eqn:H; [|done].
  apply flt_present in H as [Ha Hb]. destruct c; simpl; congruence.
Qed.

Lemma check04_cell_nan c r :
  isna (cell c r) = true → isna (cell c (check04_row r)) = true.
Proof. unfold check04_row. destruct (range_fail r); [|done]. by destruct c. Qed.

Lemma range_fail_present r : range_fail r = true → both_present r = true.
Proof.
  unfold range_fail, both_present. intros [-> ->]%fsub_present. done.
Qed.

Lemma swapped_present r : swapped r = true → both_present r = true.
Proof.
  unfold swapped, both_present. intros [-> ->]%flt_present. done.
Qed.

Lemma replaced_fmap c (f : Row float → Row float) (D : DataFrame) :
  replaced c D (f <$> D) =
    count (λ r, negb (isna (cell c r)) && isna (cell c (f r))) D.
Proof.
  unfold replaced. rewrite <- (list_fmap_id D) at 1.
  by rewrite zip_with_fmap_same, mask_sum_fmap.
Qed.

End Cells.

(** Reads of the table after the writes of a check. *)
Ltac ledger_read :=
  repeat first
    [ rewrite iloc_set_other_cell by discriminate
    | rewrite iloc_set_same
        by (apply iloc_is_Some; [by rewrite ?shape_iloc_set | lia | lia]) ].

(** ** Check 2 *)

(** C3.  Check 2 replaces, in every column, each value strictly outside the
    admissible range of the column by [nan] and leaves every other value as
    it is; it writes the number of these values, which is the number of
    cells that went from present to missing, in row "2. Gross Error" at the
    column; a value at a bound is not outside the range, and neither is
    [nan]. *)
Theorem Check02_gross_error_filter (D : DataFrame) (L : Ledger) (c : Column) :
  shape L = [4; 4; 4; 4] →
  let D' := (Check02_GrossErrors D L).1 in
  let L' := (Check02_GrossErrors D L).2 in
  getitem c D' = (λ x, if outside c x then nan else x) <$> getitem c D
  ∧ iloc 1 (pos c) L' = Some (count (outside c) (getitem c D))
  ∧ count (outside c) (getitem c D) = replaced c D D'
  ∧ (∀ x, x = of_int (spec_range c).1 ∨ x = of_int (spec_range c).2 →
          outside c x = false)
  ∧ outside c nan = false.
Proof.
  intros HL. rewrite Check02_eq. cbn [fst snd]. repeat split.
  - unfold getitem. rewrite <- !list_fmap_compose.
    apply list_fmap_ext. intros i r _. apply check02_cell.
  - unfold getitem. rewrite count_fmap.
    destruct c; cbn [pos]; ledger_read; reflexivity.
  - unfold getitem. rewrite count_fmap, replaced_fmap.
    apply count_ext. intros r. unfold compose. rewrite check02_cell.
    destruct (outside c (cell c r)) eqn:H.
    + by rewrite (outside_present _ _ H).
    + by destruct (isna (cell c r)).
  - destruct c; intros x [-> | ->]; reflexivity.
  - by destruct c.
Qed.

Lemma Check02_gross_error_filter_witness :
  shape zero_ledger = [4; 4; 4; 4]
  ∧ iloc 1 (pos WindSpeed) (Check02_GrossErrors sample_frame zero_ledger).2 = Some 2.
Proof.
  split; [reflexivity|].
  exact (proj1 (proj2
    (Check02_gross_error_filter sample_frame zero_ledger WindSpeed eq_refl))).
Defined.

(** ** Check 3 *)

(** C4.  Check 3 keeps the rows in place.  A row with both temperatures
    present and [max_temp < min_temp] has the two values exchanged; a row
    with a missing temperature is left as it is, and so is a row whose
    temperatures are in order; precipitation and wind speed are never
    touched.  The number of exchanged rows is written in row "3. Swapped" at
    both temperature columns, and afterwards [max_temp >= min_temp] holds in
    every row with both temperatures present. *)
Theorem Check03_swap_correction (D : DataFrame) (L : Ledger) :
  shape L = [4; 4; 4; 4] →
  let D' := (Check03_TmaxTminSwapped D L).1 in
  let L' := (Check03_TmaxTminSwapped D L).2 in
  length D' = length D
  ∧ (∀ i r, D !! i = Some r →
       ∃ r', D' !! i = Some r'
         ∧ precip r' = precip r ∧ wind_speed r' = wind_speed r
         ∧ (both_present r = true → flt (max_temp r) (min_temp r) = true →
              max_temp r' = min_temp r ∧ min_temp r' = max_temp r)
         ∧ (both_present r = false → r' = r)
         ∧ (flt (max_temp r) (min_temp r) = false → r' = r)
         ∧ (both_present r' = true → fge (max_temp r') (min_temp r') = true))
  ∧ iloc 2 (pos MaxTemp) L'
      = Some (count (λ r, both_present r && flt (max_temp r) (min_temp r)) D)
  ∧ iloc 2 (pos MinTemp) L' = iloc 2 (pos MaxTemp) L'.
Proof.
  intros HL. rewrite Check03_eq. cbn [fst snd pos]. split; [|split; [|split]].
  - by rewrite length_fmap.
  - intros i r Hr. exists (check03_row r). rewrite list_lookup_fmap, Hr.
    split; [done|]. unfold check03_row, swapped.
    destruct (flt (max_temp r) (min_temp r)) eqn:Hlt; cbn [precip wind_speed].
    + repeat split; try done.
      * intros Hp. apply flt_present in Hlt as [Ha Hb].
        unfold both_present in Hp. by rewrite Ha, Hb in Hp.
      * intros _. cbn [max_temp min_temp]. by apply flt_fge.
    + repeat split; try done.
      intros [Ha Hb]%andb_true_iff.
      apply not_flt_fge; [by destruct (isna (max_temp r))
                         |by destruct (isna (min_temp r))|done].
  - ledger_read. f_equal. apply count_ext. intros r.
    fold (swapped r). destruct (swapped r) eqn:H.
    + by rewrite (swapped_present _ H).
    + by rewrite andb_false_r.
  - by ledger_read.
Qed.

Lemma Check03_swap_correction_witness :
  shape zero_ledger = [4; 4; 4; 4]
  ∧ iloc 2 (pos MaxTemp) (Check03_TmaxTminSwapped sample_frame zero_ledger).2
      = Some 1.
Proof.
  split; [reflexivity|].
  exact (proj1 (proj2 (proj2
    (Check03_swap_correction sample_frame zero_ledger eq_refl)))).
Defined.

(** ** Check 4 *)

(** C5.  Check 4 keeps the rows in place.  A row with both temperatures
    present and a spread [max_temp - min_temp > 25] has both temperatures
    replaced by [nan]; a row with a missing temperature, or with a spread of
    at most 25, is left as it is; precipitation and wind speed are never
    touched.  The number of rows with both temperatures present and a
    spread above 25 is written in row "4. Range Fail" at both temperature
    columns. *)
Theorem Check04_range_spread (D : DataFrame) (L : Ledger) :
  shape L = [4; 4; 4; 4] →
  let D' := (Check04_TmaxTminRange D L).1 in
  let L' := (Check04_TmaxTminRange D L).2 in
  length D' = length D
  ∧ (∀ i r, D !! i = Some r →
       ∃ r', D' !! i = Some r'
         ∧ precip r' = precip r ∧ wind_speed r' = wind_speed r
         ∧ (both_present r = true → fgt (spread r) (of_int 25) = true →
              max_temp r' = nan ∧ min_temp r' = nan)
         ∧ (both_present r = false → r' = r)
         ∧ (fle (spread r) (of_int 25) = true → r' = r))
  ∧ iloc 3 (pos MaxTemp) L'
      = Some (count (λ r, both_present r && fgt (spread r) (of_int 25)) D)
  ∧ iloc 3 (pos MinTemp) L' = iloc 3 (pos MaxTemp) L'.
Proof.
  intros HL. rewrite Check04_eq. cbn [fst snd pos]. split; [|split; [|split]].
  - by rewrite length_fmap.
  - intros i r Hr. exists (check04_row r). rewrite list_lookup_fmap, Hr.
    split; [done|]. unfold check04_row.
    destruct (range_fail r) eqn:Hf; cbn [precip wind_speed].
    + repeat split; try done.
      * intros Hp. by rewrite (range_fail_present _ Hf) in Hp.
      * intros Hle%fle_not_fgt. unfold range_fail in Hf. congruence.
    + unfold range_fail in Hf. repeat split; try done; congruence.
  - ledger_read. f_equal. apply count_ext. intros r.
    fold (range_fail r). destruct (range_fail r) eqn:H.
    + by rewrite (range_fail_present _ H).
    + by rewrite andb_false_r.
  - by ledger_read.
Qed.

Lemma Check04_range_spread_witness :
  shape zero_ledger = [4; 4; 4; 4]
  ∧ iloc 3 (pos MaxTemp) (Check04_TmaxTminRange sample_frame zero_ledger).2
      = Some 2.
Proof.
  split; [reflexivity|].
  exact (proj1 (proj2 (proj2
    (Check04_range_spread sample_frame zero_ledger eq_refl)))).
Defined.

(** ** Check 1 *)

Section Check01.

(** Check 1 replaces the cells equal to -999, and only these, by [nan]. *)
Lemma Check01_replaces_sentinels (D : DataFrame) (L : Ledger) (c : Column) :
  getitem c (Check01_RemoveNoDataValues D L).1
  = (λ x, if feq x (of_int (-999)) then nan else x) <$> getitem c D.
Proof.
  rewrite Check01_eq. unfold getitem. cbn [fst].
  rewrite <- !list_fmap_compose. apply list_fmap_ext. intros i r _.
  unfold compose. by rewrite cell_row_map.
Qed.

(** Check 1 returns the table it received. *)
Lemma Check01_ledger_unchanged (D : DataFrame) (L : Ledger) :
  (Check01_RemoveNoDataValues D L).2 = L.
Proof. reflexivity. Qed.

(** The number of cells replaced by Check 1 in a column is the number of
    cells equal to -999. *)
Lemma Check01_mutations (D : DataFrame) (L : Ledger) (c : Column) :
  col_mutations c D (Check01_RemoveNoDataValues D L).1
  = count no_data (getitem c D).
Proof.
  rewrite Check01_eq. cbn [fst]. unfold getitem.
  rewrite col_mutations_fmap, count_fmap. apply count_ext. intros r.
  unfold compose. rewrite cell_row_map. unfold check01_cell.
  destruct (no_data (cell c r)) eqn:H.
  - apply cell_changed_nan. by apply feq_present in H.
  - apply cell_changed_same.
Qed.

End Check01.

(** C1.  On the scenario row, Check 1 replaces the precipitation -999 by
    [nan], so that the column has one missing value at the end of the
    check, but the cell of row "1. No Data" for precipitation is still 0:
    the check returns before the statements that count the missing values,
    which would have written 1. *)
Theorem Check01_no_data_count_not_written :
  let D' := (Check01_RemoveNoDataValues scenario_frame zero_ledger).1 in
  let L' := (Check01_RemoveNoDataValues scenario_frame zero_ledger).2 in
  D' = [ mkRow nan (of_int 10) (of_int 20) (of_int 5) ]
  ∧ count no_data (getitem Precip scenario_frame) = 1
  ∧ missing Precip D' = 1
  ∧ iloc 0 (pos Precip) L' = Some 0
  ∧ iloc 0 (pos Precip) (Check01_after_return D' L').2 = Some 1.
Proof. vm_compute. repeat split. Qed.

(** C2.  On the scenario row, Check 1 changes one cell of the frame, and the
    sum of row "1. No Data" after the check is 0. *)
Theorem Check01_ledger_not_reconciled :
  let D' := (Check01_RemoveNoDataValues scenario_frame zero_ledger).1 in
  let L' := (Check01_RemoveNoDataValues scenario_frame zero_ledger).2 in
  mutations scenario_frame D' = 1 ∧ row_sum 0 L' = 0.
Proof. vm_compute. split; reflexivity. Qed.

(** C6.  A second application of Check 1, on the frame and the table left by
    a first one, returns this frame and this table: no cell differs between
    its input and its output, no cell of its input equals -999, and when the
    first application started from the zero-filled table of the loader, row
    "1. No Data" holds zeros after the second. *)
Theorem Check01_idempotent (D : DataFrame) (L : Ledger) :
  let once := Check01_RemoveNoDataValues D L in
  let twice := Check01_RemoveNoDataValues once.1 once.2 in
  let once0 := Check01_RemoveNoDataValues D zero_ledger in
  let twice0 := Check01_RemoveNoDataValues once0.1 once0.2 in
  twice = once
  ∧ mutations once.1 twice.1 = 0
  ∧ (∀ c, count no_data (getitem c once.1) = 0)
  ∧ (∀ c, iloc 0 (pos c) twice0.2 = Some 0).
Proof.
  cbn zeta. rewrite !Check01_eq. cbn [fst snd].
  assert (row_map check01_cell <$> (row_map check01_cell <$> D)
          = row_map check01_cell <$> D) as Heq.
  { rewrite <- list_fmap_compose. apply list_fmap_ext. intros i [p a b w] _.
    unfold compose, row_map. cbn [precip max_temp min_temp wind_speed].
    by rewrite !check01_cell_idem. }
  rewrite Heq. repeat split.
  - unfold mutations, columns. cbn [fmap list_fmap sum_list sum_list_with].
    rewrite <- (list_fmap_id (row_map check01_cell <$> D)) at 2 4 6 8.
    rewrite !col_mutations_fmap.
    rewrite !count_none; [done|..]; intros r; apply cell_changed_same.
  - intros c. unfold getitem. rewrite <- list_fmap_compose, count_fmap.
    apply count_none. intros r. unfold compose. rewrite cell_row_map.
    unfold check01_cell, no_data.
    destruct (feq (cell c r) (of_int (-999))) eqn:H; [reflexivity|exact H].
  - intros c. by destruct c.
Qed.

(** ** The four checks in sequence *)

Section Sequence.

Lemma run_checks_stage4 D L : run_checks D L = stage4 D L.
Proof.
  unfold run_checks, stage4, stage3, stage2, stage1.
  destruct (Check01_RemoveNoDataValues D L) as [D1 L1]. cbn [fst snd].
  destruct (Check02_GrossErrors D1 L1) as [D2 L2]. cbn [fst snd].
  by destruct (Check03_TmaxTminSwapped D2 L2) as [D3 L3].
Qed.

Lemma keeps_missing_fmap (f : Row float → Row float) (D : DataFrame) :
  (∀ c r, isna (cell c r) = true → isna (cell c (f r)) = true) →
  keeps_missing D (f <$> D).
Proof.
  intros Hf. split; [by rewrite length_fmap|].
  intros c i r Hr Hna. exists (f r). rewrite list_lookup_fmap, Hr. eauto.
Qed.

Lemma missing_le_fmap (f : Row float → Row float) (D : DataFrame) c :
  (∀ r, isna (cell c r) = true → isna (cell c (f r)) = true) →
  missing c D ≤ missing c (f <$> D).
Proof.
  intros Hf. rewrite !missing_count, count_fmap. by apply count_le.
Qed.

Lemma check01_row_nan c r :
  isna (cell c r) = true → isna (cell c (row_map check01_cell r)) = true.
Proof. rewrite cell_row_map. apply check01_cell_nan. Qed.

Lemma check02_row_nan c r :
  isna (cell c r) = true → isna (cell c (check02_row r)) = true.
Proof. rewrite check02_cell. by destruct (outside c (cell c r)). Qed.

End Sequence.

(** C7.  Along the four checks in the order of the driver, the number of
    missing values of every column never decreases, and a value that is
    missing before a check is missing after it. *)
Theorem missing_monotone (D : DataFrame) (L : Ledger) (c : Column) :
  let D1 := (stage1 D L).1 in
  let D2 := (stage2 D L).1 in
  let D3 := (stage3 D L).1 in
  let D4 := (stage4 D L).1 in
  D4 = (run_checks D L).1
  ∧ missing c D ≤ missing c D1
  ∧ missing c D1 ≤ missing c D2
  ∧ missing c D2 ≤ missing c D3
  ∧ missing c D3 ≤ missing c D4
  ∧ keeps_missing D D1 ∧ keeps_missing D1 D2
  ∧ keeps_missing D2 D3 ∧ keeps_missing D3 D4.
Proof.
  cbn zeta. split; [f_equal; symmetry; apply run_checks_stage4|].
  unfold stage4, stage3, stage2, stage1.
  rewrite Check01_eq. cbn [fst snd]. rewrite Check02_eq. cbn [fst snd].
  rewrite Check03_eq. cbn [fst snd]. rewrite Check04_eq. cbn [fst snd].
  repeat split;
    first [ apply missing_le_fmap; intros r | apply keeps_missing_fmap; intros c' r
          | (by rewrite !length_fmap)
          | apply keeps_missing_fmap ];
    eauto using check01_row_nan, check02_row_nan, check03_cell_nan, check04_cell_nan.
Qed.

(** C9.  The check whose row has position [k] in the table leaves every
    other row as it received it; the loader returns the table filled with
    zeros; and after the four checks on this table, row "1. No Data" holds
    zeros and each other row holds the counts written by its check, in the
    columns this check writes. *)
Theorem ledger_frame (D : DataFrame) (L : Ledger) :
  (∀ k j check, checks !! k = Some check → j ≠ k →
     (check D L).2 !! j = L !! j)
  ∧ (∀ read_csv fileName,
       snd <$> ReadData read_csv fileName
       = (λ _, replicate 4 (replicate 4 0)) <$> read_csv "DataQualityChecking.txt")
  ∧ (run_checks D zero_ledger).2 =
      [ [0; 0; 0; 0];
        [ count (gross Precip 0 25) (stage1 D zero_ledger).1;
          count (gross MaxTemp (-25) 35) (stage1 D zero_ledger).1;
          count (gross MinTemp (-25) 35) (stage1 D zero_ledger).1;
          count (gross WindSpeed 0 10) (stage1 D zero_ledger).1 ];
        [ 0; count swapped (stage2 D zero_ledger).1;
          count swapped (stage2 D zero_ledger).1; 0 ];
        [ 0; count range_fail (stage3 D zero_ledger).1;
          count range_fail (stage3 D zero_ledger).1; 0 ] ].
Proof.
  split; [|split].
  - intros k j check Hk Hj.
    destruct k as [|[|[|[|k]]]]; cbn in Hk; try discriminate;
      injection Hk as <-.
    + reflexivity.
    + rewrite Check02_eq. cbn [snd]. by rewrite !iloc_set_other_row.
    + rewrite Check03_eq. cbn [snd]. by rewrite !iloc_set_other_row.
    + rewrite Check04_eq. cbn [snd]. by rewrite !iloc_set_other_row.
  - intros read_csv fileName. unfold ReadData.
    by destruct (read_csv _).
  - rewrite run_checks_stage4. unfold stage4, stage3, stage2, stage1.
    rewrite Check01_eq. cbn [fst snd]. rewrite Check02_eq. cbn [fst snd].
    rewrite Check03_eq. cbn [fst snd]. rewrite Check04_eq. reflexivity.
Qed.

Lemma ledger_frame_witness :
  checks !! 1 = Some Check02_GrossErrors ∧ 0 ≠ 1
  ∧ (Check02_GrossErrors sample_frame zero_ledger).2 !! 0 = zero_ledger !! 0.
Proof.
  split; [reflexivity|]. split; [lia|].
  exact (proj1 (ledger_frame sample_frame zero_ledger) 1 0 Check02_GrossErrors
           eq_refl ltac:(lia)).
Defined.

(** ** A gross error hides a range failure *)

Section Interaction.

Lemma mask_sum_delete_false (index : Mask) i :
  index !! i = Some false → mask_sum (delete i index) = mask_sum index.
Proof.
  unfold mask_sum. revert i. induction index as [|b index IH]; intros i Hi.
  - by rewrite lookup_nil in Hi.
  - destruct i as [|i].
    + injection Hi as ->. reflexivity.
    + cbn in Hi. cbn. f_equal. by apply IH.
Qed.

Lemma count_delete {A} (P : A → bool) (l : list A) i x :
  l !! i = Some x → count P l = Nat.b2n (P x) + count P (delete i l).
Proof.
  unfold count. revert i. induction l as [|y l IH]; intros i Hi.
  - by rewrite lookup_nil in Hi.
  - destruct i as [|i].
    + injection Hi as ->. simpl. by destruct (P x).
    + specialize (IH i Hi). simpl. destruct (P y); simpl; lia.
Qed.

End Interaction.

(** C8.  A row that enters Check 2 with [max_temp = 40] and [min_temp = 0]
    has a maximum above 35: Check 2 replaces it by [nan], keeps the minimum,
    and counts the row in row "2. Gross Error" at the maximum.  After
    Check 3 the temperatures of the row are not both present; the mask of
    Check 4 is false at the row, Check 4 leaves the row as it is, and the
    counts that Check 4 writes in row "4. Range Fail", at both temperature
    columns, are the counts of the frame without the row: the row adds 0 to
    them, although the test of Check 4 holds on the row as it entered
    Check 2. *)
Theorem gross_error_hides_range_fail (D : DataFrame) (L : Ledger) (i : nat)
    (r : Row float) :
  shape L = [4; 4; 4; 4] →
  D !! i = Some r → max_temp r = of_int 40 → min_temp r = of_int 0 →
  let s2 := Check02_GrossErrors D L in
  let s3 := Check03_TmaxTminSwapped s2.1 s2.2 in
  let s4 := Check04_TmaxTminRange s3.1 s3.2 in
  fgt (max_temp r) (of_int 35) = true
  ∧ range_fail r = true
  ∧ (∃ r2, s2.1 !! i = Some r2 ∧ max_temp r2 = nan ∧ min_temp r2 = of_int 0)
  ∧ (∃ r3, s3.1 !! i = Some r3 ∧ both_present r3 = false
           ∧ s4.1 !! i = Some r3)
  ∧ Check04_index s3.1 !! i = Some false
  ∧ mask_sum (Check04_index s3.1) = mask_sum (Check04_index (delete i s3.1))
  ∧ iloc 3 (pos MaxTemp) s4.2 = Some (mask_sum (Check04_index (delete i s3.1)))
  ∧ iloc 3 (pos MinTemp) s4.2 = Some (mask_sum (Check04_index (delete i s3.1)))
  ∧ iloc 1 (pos MaxTemp) s4.2
    = Some (1 + count (gross MaxTemp (-25) 35) (delete i D)).
Proof.
  intros HL Hr Hmax Hmin. cbn zeta.
  rewrite Check02_eq. cbn [fst snd]. rewrite Check03_eq. cbn [fst snd].
  rewrite Check04_eq. cbn [fst snd pos].
  assert (max_temp (check02_row r) = nan ∧ min_temp (check02_row r) = of_int 0)
    as [H2a H2b].
  { split.
    - change (cell MaxTemp (check02_row r) = nan). rewrite check02_cell.
      cbn [cell]. by rewrite Hmax.
    - change (cell MinTemp (check02_row r) = of_int 0). rewrite check02_cell.
      cbn [cell]. by rewrite Hmin. }
  assert (check03_row (check02_row r) = check02_row r) as H3.
  { unfold check03_row, swapped. by rewrite H2a. }
  assert (range_fail (check02_row r) = false) as H4.
  { unfold range_fail, spread. by rewrite H2a. }
  assert (check04_row (check02_row r) = check02_row r) as H5.
  { unfold check04_row. by rewrite H4. }
  assert (gross MaxTemp (-25) 35 r = true) as Hg.
  { unfold gross. cbn [cell]. by rewrite Hmax. }
  split; [by rewrite Hmax|]. split; [unfold range_fail, spread; by rewrite Hmax, Hmin|].
  split; [exists (check02_row r); by rewrite list_lookup_fmap, Hr|].
  split.
  { exists (check02_row r). rewrite !list_lookup_fmap, Hr. cbn. rewrite H3, H5.
    split; [done|]. split; [|done]. unfold both_present. by rewrite H2a. }
  assert (Check04_index (check03_row <$> (check02_row <$> D)) !! i = Some false)
    as Hi.
  { rewrite Check04_index_eq, !list_lookup_fmap, Hr. cbn. by rewrite H3, H4. }
  assert (mask_sum (Check04_index (check03_row <$> (check02_row <$> D)))
          = mask_sum (Check04_index
                        (delete i (check03_row <$> (check02_row <$> D)))))
    as Hsum.
  { rewrite (Check04_index_eq (delete i _)), list_fmap_delete,
      <- Check04_index_eq.
    symmetry. by apply mask_sum_delete_false. }
  split; [done|]. split; [done|].
  rewrite <- Hsum, Check04_index_eq, mask_sum_fmap.
  split; [by ledger_read|]. split; [by ledger_read|].
  ledger_read. by rewrite (count_delete _ D i r Hr), Hg.
Qed.

Lemma gross_error_hides_range_fail_witness :
  shape zero_ledger = [4; 4; 4; 4]
  ∧ [ mkRow (of_int 0) (of_int 40) (of_int 0) (of_int 5) ] !! 0
      = Some (mkRow (of_int 0) (of_int 40) (of_int 0) (of_int 5))
  ∧ iloc 3 (pos MaxTemp)
      (Check04_TmaxTminRange
         (Check03_TmaxTminSwapped
            (Check02_GrossErrors
               [ mkRow (of_int 0) (of_int 40) (of_int 0) (of_int 5) ]
               zero_ledger).1
            (Check02_GrossErrors
               [ mkRow (of_int 0) (of_int 40) (of_int 0) (of_int 5) ]
               zero_ledger).2).1
         (Check03_TmaxTminSwapped
            (Check02_GrossErrors
               [ mkRow (of_int 0) (of_int 40) (of_int 0) (of_int 5) ]
               zero_ledger).1
            (Check02_GrossErrors
               [ mkRow (of_int 0) (of_int 40) (of_int 0) (of_int 5) ]
               zero_ledger).2).2).2
    = Some 0.
Proof.
  split; [reflexivity|]. split; [reflexivity|].
  exact (proj1 (proj2 (proj2 (proj2 (proj2 (proj2 (proj2
    (gross_error_hides_range_fail
       [ mkRow (of_int 0) (of_int 40) (of_int 0) (of_int 5) ] zero_ledger 0
       (mkRow (of_int 0) (of_int 40) (of_int 0) (of_int 5))
       eq_refl eq_refl eq_refl eq_refl)))))))).
Defined.

(** ** Counts and mutations of Checks 2, 3 and 4

    For the three checks that write their counts, the sum of the row of the
    check is the number of cells the check changed. *)

Section Reconciliation.

Lemma check02_col_mutations c (D : DataFrame) :
  col_mutations c D (check02_row <$> D) = count (λ r, outside c (cell c r)) D.
Proof.
  rewrite col_mutations_fmap. apply count_ext. intros r.
  rewrite check02_cell. destruct (outside c (cell c r)) eqn:H.
  - apply cell_changed_nan. by apply outside_present in H.
  - apply cell_changed_same.
Qed.

Lemma Check02_reconciled (D : DataFrame) (L : Ledger) :
  shape L = [4; 4; 4; 4] →
  row_sum 1 (Check02_GrossErrors D L).2
  = mutations D (Check02_GrossErrors D L).1.
Proof.
  intros HL. rewrite Check02_eq. cbn [fst snd].
  destruct (shape_4x4 L HL)
    as (a0&a1&a2&a3&b0&b1&b2&b3&c0&c1&c2&c3&d0&d1&d2&d3&->).
  unfold mutations, columns. cbn [fmap list_fmap sum_list sum_list_with].
  rewrite !check02_col_mutations. reflexivity.
Qed.

Lemma check03_col_mutations c (D : DataFrame) :
  col_mutations c D (check03_row <$> D)
  = match c with
    | MaxTemp | MinTemp => count swapped D
    | Precip | WindSpeed => 0
    end.
Proof.
  rewrite col_mutations_fmap.
  assert (∀ r, cell_changed (cell c r) (cell c (check03_row r))
               = match c with
                 | MaxTemp | MinTemp => swapped r
                 | Precip | WindSpeed => false
                 end) as H.
  { intros r. unfold check03_row, swapped.
    destruct (flt (max_temp r) (min_temp r)) eqn:Hlt.
    - destruct c; cbn [cell precip max_temp min_temp wind_speed];
        rewrite ?cell_changed_same; try done;
        unfold cell_changed; rewrite bool_decide_eq_true;
        apply flt_neq in Hlt; congruence.
    - rewrite cell_changed_same. by destruct c. }
  destruct c; first [ by apply count_none | by apply count_ext ].
Qed.

Lemma Check03_reconciled (D : DataFrame) (L : Ledger) :
  L !! 2 = Some [0; 0; 0; 0] →
  row_sum 2 (Check03_TmaxTminSwapped D L).2
  = mutations D (Check03_TmaxTminSwapped D L).1.
Proof.
  intros HL. rewrite Check03_eq. cbn [fst snd].
  unfold row_sum, iloc_set. rewrite !list_lookup_alter_eq, HL.
  unfold mutations, columns. cbn [fmap list_fmap sum_list sum_list_with].
  rewrite !check03_col_mutations. reflexivity.
Qed.

Lemma check04_col_mutations c (D : DataFrame) :
  col_mutations c D (check04_row <$> D)
  = match c with
    | MaxTemp | MinTemp => count range_fail D
    | Precip | WindSpeed => 0
    end.
Proof.
  rewrite col_mutations_fmap.
  assert (∀ r, cell_changed (cell c r) (cell c (check04_row r))
               = match c with
                 | MaxTemp | MinTemp => range_fail r
                 | Precip | WindSpeed => false
                 end) as H.
  { intros r. unfold check04_row.
    destruct (range_fail r) eqn:Hf.
    - apply range_fail_present in Hf as [Ha Hb]%andb_true_iff.
      destruct c; cbn [cell precip max_temp min_temp wind_speed];
        rewrite ?cell_changed_same; try done;
        apply cell_changed_nan.
      + by destruct (isna (max_temp r)).
      + by destruct (isna (min_temp r)).
    - rewrite cell_changed_same. by destruct c. }
  destruct c; first [ by apply count_none | by apply count_ext ].
Qed.

Lemma Check04_reconciled (D : DataFrame) (L : Ledger) :
  L !! 3 = Some [0; 0; 0; 0] →
  row_sum 3 (Check04_TmaxTminRange D L).2
  = mutations D (Check04_TmaxTminRange D L).1.
Proof.
  intros HL. rewrite Check04_eq. cbn [fst snd].
  unfold row_sum, iloc_set. rewrite !list_lookup_alter_eq, HL.
  unfold mutations, columns. cbn [fmap list_fmap sum_list sum_list_with].
  rewrite !check04_col_mutations. reflexivity.
Qed.

(** X1.  In the driver, from the table of the loader: for each of Checks 2,
    3 and 4, the sum of the row of the check, as the check leaves it, is the
    number of cells of the frame that differ between the input and the
    output of the check. *)
Lemma driver_reconciled_checks_2_3_4 (D : DataFrame) :
  row_sum 1 (stage2 D zero_ledger).2
    = mutations (stage1 D zero_ledger).1 (stage2 D zero_ledger).1
  ∧ row_sum 2 (stage3 D zero_ledger).2
    = mutations (stage2 D zero_ledger).1 (stage3 D zero_ledger).1
  ∧ row_sum 3 (stage4 D zero_ledger).2
    = mutations (stage3 D zero_ledger).1 (stage4 D zero_ledger).1.
Proof.
  split; [|split].
  - by apply Check02_reconciled.
  - apply Check03_reconciled. unfold stage2, stage1.
    rewrite Check02_eq. cbn [snd]. by rewrite !iloc_set_other_row.
  - apply Check04_reconciled. unfold stage3, stage2, stage1.
    rewrite Check03_eq. cbn [snd]. rewrite Check02_eq. cbn [snd].
    by rewrite !iloc_set_other_row.
Qed.

End Reconciliation.

(** ** The scenarios of the specification, evaluated *)

(** The row [-999 10 20 5]: the precipitation becomes [nan], the
    temperatures are exchanged, and row "1. No Data" stays at zero. *)
Example end_to_end_scenario :
  run_checks scenario_frame zero_ledger
  = ([ mkRow nan (of_int 20) (of_int 10) (of_int 5) ],
     [ [0; 0; 0; 0]; [0; 0; 0; 0]; [0; 1; 1; 0]; [0; 0; 0; 0] ]).
Proof. reflexivity. Qed.

(** A row with [max_temp = 40] and [min_temp = 0]: one gross error, no range
    failure. *)
Example range_fail_scenario :
  run_checks [ mkRow (of_int 0) (of_int 40) (of_int 0) (of_int 5) ] zero_ledger
  = ([ mkRow (of_int 0) nan (of_int 0) (of_int 5) ],
     [ [0; 0; 0; 0]; [0; 1; 0; 0]; [0; 0; 0; 0]; [0; 0; 0; 0] ]).
Proof. reflexivity. Qed.

(** The binary64 values nearest to 25.0001 and to -0.0001 are outside the
    range of precipitation. *)
Example precip_just_outside :
  outside Precip (S754_finite false 7036902565264071 (-48)) = true
  ∧ outside Precip (S754_finite true 7378697629483821 (-66)) = true.
Proof. split; reflexivity. Qed.

(** ** The loader *)

(** C10.  [ReadData] returns the same result for any two file names: the
    frame read from "DataQualityChecking.txt", with the table of zeros.
    The second load of the driver therefore returns the frame of the first
    load, as it was before the checks. *)
Theorem ReadData_ignores_fileName (read_csv : string → option DataFrame)
    (fileName1 fileName2 : string) :
  ReadData read_csv fileName1 = ReadData read_csv fileName2
  ∧ ReadData read_csv fileName1
    = (λ D, (D, zero_ledger)) <$> read_csv "DataQualityChecking.txt"
  ∧ main read_csv
    = (λ D, ((run_checks D zero_ledger).1, D, (run_checks D zero_ledger).2))
        <$> read_csv "DataQualityChecking.txt".
Proof.
  split; [reflexivity|]. split.
  - unfold ReadData. by destruct (read_csv _).
  - unfold main, ReadData.
    destruct (read_csv _) as [D|]; [|reflexivity]. cbn.
    by destruct (run_checks D zero_ledger).
Qed.

(** A file system with the data file only: a load of any other name still
    returns the frame of the data file. *)
Example ReadData_other_name :
  let read_csv := λ f : string,
    if decide (f = "DataQualityChecking.txt") then Some sample_frame else None in
  read_csv "Other.txt" = None
  ∧ ReadData read_csv "Other.txt" = Some (sample_frame, zero_ledger).
Proof. split; reflexivity. Qed.

(** * Further properties of the checks *)

(** ** More on comparisons and counts *)

Section MoreFacts.

Lemma flt_asym (x y : float) : flt x y = true → flt y x = false.
Proof.
  unfold flt, SFltb. destruct (SFcompare x y) as [c|] eqn:Hc; [|discriminate].
  rewrite (SFcompare_antisym _ _ _ Hc). by destruct c.
Qed.

(** [==] against a finite constant holds for this very value only. *)
Lemma feq_finite_eq (x : float) s m e :
  feq x (S754_finite s m e) = true → x = S754_finite s m e.
Proof.
  unfold feq, SFeqb.
  destruct x as [sx|sx| |sx mx ex]; simpl;
    try discriminate; try (destruct sx; discriminate);
    try (destruct s; discriminate).
  change (PosDef.Pos.compare_cont Eq mx m) with (mx ?= m)%positive.
  destruct sx, s; try discriminate;
    destruct (ex ?= e)%Z eqn:He; try discriminate;
    destruct (mx ?= m)%positive eqn:Hm; simpl; try discriminate; intros _;
    apply Z.compare_eq in He; apply Pos.compare_eq in Hm; by subst.
Qed.

Lemma no_data_spec (x : float) : no_data x = true ↔ x = of_int (-999).
Proof.
  split.
  - apply feq_finite_eq.
  - by intros ->.
Qed.

Lemma count_le_length {A} (P : A → bool) (l : list A) : count P l ≤ length l.
Proof.
  unfold count. induction l as [|x l IH]; simpl; [done|].
  destruct (P x); simpl; lia.
Qed.

Lemma count_Forall_none {A} (P : A → bool) (l : list A) :
  Forall (λ x, P x = false) l → count P l = 0.
Proof.
  unfold count. induction 1 as [|x l Hx _ IH]; simpl; [done|]. by rewrite Hx.
Qed.

(** The elements that pass either of two exclusive tests. *)
Lemma count_disjoint_or {A} (P Q R : A → bool) (l : list A) :
  (∀ x, P x = Q x || R x) → (∀ x, Q x && R x = false) →
  count P l = count Q l + count R l.
Proof.
  intros HP HQR. unfold count. induction l as [|x l IH]; simpl; [done|].
  rewrite HP. specialize (HQR x).
  destruct (Q x), (R x); simpl in *; try discriminate; lia.
Qed.

Lemma fmap_Forall_id {A} (f : A → A) (l : list A) :
  Forall (λ x, f x = x) l → f <$> l = l.
Proof. induction 1 as [|x l Hx _ IH]; simpl; [done|]. f_equal; [exact Hx|exact IH]. Qed.

Lemma row_ext {A} (r r' : Row A) : (∀ c, cell c r = cell c r') → r = r'.
Proof.
  intros H. destruct r, r'.
  pose proof (H Precip). pose proof (H MaxTemp).
  pose proof (H MinTemp). pose proof (H WindSpeed). simpl in *. congruence.
Qed.

Lemma check03_cell c r :
  cell c (check03_row r) = if swapped r then cell (swap_col c) r else cell c r.
Proof. unfold check03_row. destruct (swapped r); by destruct c. Qed.

Lemma check04_cell c r :
  cell c (check04_row r)
  = if range_fail r
    then match c with MaxTemp | MinTemp => nan | _ => cell c r end
    else cell c r.
Proof. unfold check04_row. destruct (range_fail r); by destruct c. Qed.

Lemma outside_swap_col c x : outside (swap_col c) x = outside c x.
Proof. by destruct c. Qed.

End MoreFacts.

(** ** The driver's checks as one pass over the rows *)

Section Pipeline.

Lemma run_checks_eq (D : DataFrame) (L : Ledger) :
  let D1 := row_map check01_cell <$> D in
  let D2 := check02_row <$> D1 in
  let D3 := check03_row <$> D2 in
  run_checks D L =
    (check04_row <$> D3,
     iloc_set 3 2 (count range_fail D3)
       (iloc_set 3 1 (count range_fail D3)
          (iloc_set 2 2 (count swapped D2)
             (iloc_set 2 1 (count swapped D2)
                (iloc_set 1 3 (count (gross WindSpeed 0 10) D1)
                   (iloc_set 1 2 (count (gross MinTemp (-25) 35) D1)
                      (iloc_set 1 1 (count (gross MaxTemp (-25) 35) D1)
                         (iloc_set 1 0 (count (gross Precip 0 25) D1) L)))))))).
Proof.
  cbn zeta. rewrite run_checks_stage4. unfold stage4, stage3, stage2, stage1.
  rewrite Check01_eq. cbn [fst snd]. rewrite Check02_eq. cbn [fst snd].
  rewrite Check03_eq. cbn [fst snd]. by rewrite Check04_eq.
Qed.

Lemma run_checks_frame (D : DataFrame) (L : Ledger) :
  (run_checks D L).1 = pipeline_row <$> D.
Proof.
  rewrite run_checks_eq. cbn [fst]. by rewrite <- !list_fmap_compose.
Qed.

Lemma clean_check01 r : clean r → row_map check01_cell r = r.
Proof.
  intros (H1 & _). apply row_ext. intros c. rewrite cell_row_map.
  unfold check01_cell. by rewrite H1.
Qed.

Lemma clean_check02 r : clean r → check02_row r = r.
Proof.
  intros (_ & H2 & _). apply row_ext. intros c. rewrite check02_cell.
  by rewrite H2.
Qed.

Lemma clean_check03 r : clean r → check03_row r = r.
Proof. intros (_ & _ & H3 & _). unfold check03_row. by rewrite H3. Qed.

Lemma clean_check04 r : clean r → check04_row r = r.
Proof. intros (_ & _ & _ & H4). unfold check04_row. by rewrite H4. Qed.

Lemma pipeline_row_clean r : clean (pipeline_row r).
Proof.
  unfold pipeline_row.
  set (r1 := row_map check01_cell r).
  assert (∀ c, no_data (cell c r1) = false) as N1.
  { intros c. unfold r1. rewrite cell_row_map. unfold check01_cell.
    by destruct (no_data (cell c r)) eqn:H. }
  set (r2 := check02_row r1).
  assert (∀ c, no_data (cell c r2) = false) as N2.
  { intros c. unfold r2. rewrite check02_cell.
    destruct (outside c (cell c r1)); [reflexivity|apply N1]. }
  assert (∀ c, outside c (cell c r2) = false) as O2.
  { intros c. unfold r2. rewrite check02_cell.
    destruct (outside c (cell c r1)) eqn:H; [by destruct c|exact H]. }
  set (r3 := check03_row r2).
  assert (∀ c, no_data (cell c r3) = false) as N3.
  { intros c. unfold r3. rewrite check03_cell. destruct (swapped r2); apply N2. }
  assert (∀ c, outside c (cell c r3) = false) as O3.
  { intros c. unfold r3. rewrite check03_cell.
    destruct (swapped r2); [|apply O2].
    rewrite <- outside_swap_col. apply O2. }
  assert (swapped r3 = false) as S3.
  { unfold r3, check03_row. destruct (swapped r2) eqn:H; [|exact H].
    unfold swapped in *. cbn [max_temp min_temp]. by apply flt_asym. }
  split; [|split; [|split]].
  - intros c. rewrite check04_cell.
    destruct (range_fail r3); [|apply N3]. destruct c; first [apply N3|reflexivity].
  - intros c. rewrite check04_cell.
    destruct (range_fail r3); [|apply O3]. destruct c; first [apply O3|reflexivity].
  - unfold check04_row. destruct (range_fail r3); [reflexivity|exact S3].
  - unfold check04_row. destruct (range_fail r3) eqn:H; [reflexivity|exact H].
Qed.

Lemma clean_pipeline_row r : clean r → pipeline_row r = r.
Proof.
  intros H. unfold pipeline_row.
  by rewrite (clean_check01 r H), (clean_check02 r H), (clean_check03 r H),
    (clean_check04 r H).
Qed.

Lemma mutations_same (D : DataFrame) : mutations D D = 0.
Proof.
  unfold mutations, columns. cbn [fmap list_fmap sum_list sum_list_with].
  assert (∀ c, col_mutations c D D = 0) as H.
  { intros c. pose proof (col_mutations_fmap c id D) as H.
    rewrite list_fmap_id in H. rewrite H.
    apply count_none. intros r. apply cell_changed_same. }
  by rewrite !H.
Qed.

(** On a frame of clean rows, the checks return the frame and write zeros. *)
Lemma run_checks_clean (D : DataFrame) (L : Ledger) :
  Forall clean D →
  run_checks D L =
    (D, iloc_set 3 2 0 (iloc_set 3 1 0 (iloc_set 2 2 0 (iloc_set 2 1 0
          (iloc_set 1 3 0 (iloc_set 1 2 0 (iloc_set 1 1 0 (iloc_set 1 0 0 L)))))))).
Proof.
  intros HD. rewrite run_checks_eq. cbn zeta.
  assert (row_map check01_cell <$> D = D) as ->.
  { apply fmap_Forall_id. eapply Forall_impl; [exact HD|]. apply clean_check01. }
  assert (check02_row <$> D = D) as ->.
  { apply fmap_Forall_id. eapply Forall_impl; [exact HD|]. apply clean_check02. }
  assert (check03_row <$> D = D) as ->.
  { apply fmap_Forall_id. eapply Forall_impl; [exact HD|]. apply clean_check03. }
  assert (check04_row <$> D = D) as ->.
  { apply fmap_Forall_id. eapply Forall_impl; [exact HD|]. apply clean_check04. }
  assert (∀ c lo hi, spec_range c = (lo, hi) → count (gross c lo hi) D = 0)
    as HG.
  { intros c lo hi Hr. apply count_Forall_none. eapply Forall_impl; [exact HD|].
    intros r (_ & H2 & _). specialize (H2 c). unfold outside in H2.
    by rewrite Hr in H2. }
  rewrite (HG Precip 0%Z 25%Z eq_refl), (HG MaxTemp (-25)%Z 35%Z eq_refl),
    (HG MinTemp (-25)%Z 35%Z eq_refl), (HG WindSpeed 0%Z 10%Z eq_refl).
  assert (count swapped D = 0) as ->.
  { apply count_Forall_none. eapply Forall_impl; [exact HD|]. by intros r (_&_&?&_). }
  assert (count range_fail D = 0) as ->.
  { apply count_Forall_none. eapply Forall_impl; [exact HD|]. by intros r (_&_&_&?). }
  reflexivity.
Qed.

End Pipeline.

(** X2.  The four checks of the driver, run a second time on the frame and
    the table they returned, return the same frame: no cell changes, and
    the second pass overwrites every count it writes with 0, while row
    "1. No Data" is as the first pass left it. *)
Theorem run_checks_idempotent (D : DataFrame) (L : Ledger) :
  shape L = [4; 4; 4; 4] →
  let once := run_checks D L in
  let twice := run_checks once.1 once.2 in
  twice.1 = once.1
  ∧ mutations once.1 twice.1 = 0
  ∧ twice.2 !! 0 = L !! 0
  ∧ twice.2 !! 1 = Some [0; 0; 0; 0]
  ∧ iloc 2 (pos MaxTemp) twice.2 = Some 0 ∧ iloc 2 (pos MinTemp) twice.2 = Some 0
  ∧ iloc 3 (pos MaxTemp) twice.2 = Some 0 ∧ iloc 3 (pos MinTemp) twice.2 = Some 0.
Proof.
  intros HL. cbn zeta.
  assert (Forall clean (run_checks D L).1) as Hc.
  { rewrite run_checks_frame. apply Forall_fmap, Forall_true.
    intros r. apply pipeline_row_clean. }
  rewrite (run_checks_clean _ _ Hc). cbn [fst snd].
  split; [done|]. split; [apply mutations_same|].
  assert (shape (run_checks D L).2 = [4; 4; 4; 4]) as HL'.
  { rewrite run_checks_eq. cbn [snd]. by rewrite !shape_iloc_set. }
  split.
  { rewrite !iloc_set_other_row by lia. rewrite run_checks_eq. cbn [snd].
    by rewrite !iloc_set_other_row by lia. }
  split.
  { destruct (shape_4x4 _ HL')
      as (a0&a1&a2&a3&b0&b1&b2&b3&c0&c1&c2&c3&d0&d1&d2&d3&->).
    reflexivity. }
  cbn [pos]. repeat split; by ledger_read.
Qed.

Lemma run_checks_idempotent_witness :
  shape zero_ledger = [4; 4; 4; 4]
  ∧ (run_checks (run_checks sample_frame zero_ledger).1
       (run_checks sample_frame zero_ledger).2).1
    = (run_checks sample_frame zero_ledger).1.
Proof.
  split; [reflexivity|].
  exact (proj1 (run_checks_idempotent sample_frame zero_ledger eq_refl)).
Defined.

(** What a clean row satisfies, in terms of its cells. *)
Lemma clean_row_bounds (r : Row float) :
  clean r →
  (∀ c, cell c r ≠ of_int (-999))
  ∧ (∀ c, isna (cell c r) = false →
       fle (of_int (spec_range c).1) (cell c r) = true
       ∧ fle (cell c r) (of_int (spec_range c).2) = true)
  ∧ (both_present r = true →
       fge (max_temp r) (min_temp r) = true
       ∧ fgt (spread r) (of_int 25) = false).
Proof.
  intros (H1 & H2 & H3 & H4). split; [|split].
  - intros c Hc. apply no_data_spec in Hc. by rewrite H1 in Hc.
  - intros c Hna. specialize (H2 c). unfold outside in H2.
    apply orb_false_iff in H2 as [Hlo Hhi]. unfold fgt in Hhi. split.
    + change (fge (cell c r) (of_int (spec_range c).1) = true).
      apply not_flt_fge; [exact Hna|by destruct c|exact Hlo].
    + change (fge (of_int (spec_range c).2) (cell c r) = true).
      apply not_flt_fge; [by destruct c|exact Hna|exact Hhi].
  - unfold swapped in H3. unfold range_fail in H4.
    intros [Ha Hb]%andb_true_iff. split; [|exact H4].
    apply negb_true_iff in Ha, Hb. by apply not_flt_fge.
Qed.

(** X3.  In the frame returned by the four checks of the driver, no cell is
    -999; every present cell lies within the bounds of its column; and in
    every row with both temperatures present, [max_temp >= min_temp] and the
    spread is not above 25. *)
Theorem run_checks_postcondition (D : DataFrame) (L : Ledger) (i : nat)
    (r : Row float) :
  (run_checks D L).1 !! i = Some r →
  (∀ c, cell c r ≠ of_int (-999))
  ∧ (∀ c, isna (cell c r) = false →
       fle (of_int (spec_range c).1) (cell c r) = true
       ∧ fle (cell c r) (of_int (spec_range c).2) = true)
  ∧ (both_present r = true →
       fge (max_temp r) (min_temp r) = true
       ∧ fgt (spread r) (of_int 25) = false).
Proof.
  rewrite run_checks_frame, list_lookup_fmap.
  destruct (D !! i) as [r0|]; [|discriminate]. cbn [fmap option_fmap option_map].
  intros H. apply (inj Some) in H. subst r.
  apply clean_row_bounds, pipeline_row_clean.
Qed.

Lemma run_checks_postcondition_witness :
  (run_checks sample_frame zero_ledger).1 !! 0
    = Some (mkRow nan (of_int 20) (of_int 10) (of_int 5))
  ∧ fge (of_int 20) (of_int 10) = true.
Proof.
  split; [reflexivity|].
  exact (proj1 (proj2 (proj2
    (run_checks_postcondition sample_frame zero_ledger 0
       (mkRow nan (of_int 20) (of_int 10) (of_int 5)) eq_refl)) eq_refl)).
Defined.

(** ** Missing values, check by check *)

Section Accounting.

Lemma count_getitem (P : float → bool) c (D : DataFrame) :
  count P (getitem c D) = count (λ r, P (cell c r)) D.
Proof. unfold getitem. by rewrite count_fmap. Qed.

Lemma missing_check01 c (D : DataFrame) :
  missing c (row_map check01_cell <$> D)
  = missing c D + count no_data (getitem c D).
Proof.
  rewrite !missing_count, count_fmap, count_getitem.
  apply count_disjoint_or; intros r; unfold compose.
  - rewrite cell_row_map. unfold check01_cell.
    destruct (no_data (cell c r)); [by rewrite orb_true_r|by rewrite orb_false_r].
  - destruct (no_data (cell c r)) eqn:H; [|by rewrite andb_false_r].
    apply feq_present in H. by rewrite H.
Qed.

Lemma missing_check02 c (D : DataFrame) :
  missing c (check02_row <$> D)
  = missing c D + count (λ r, outside c (cell c r)) D.
Proof.
  rewrite !missing_count, count_fmap.
  apply count_disjoint_or; intros r; unfold compose.
  - rewrite check02_cell.
    destruct (outside c (cell c r)); [by rewrite orb_true_r|by rewrite orb_false_r].
  - destruct (outside c (cell c r)) eqn:H; [|by rewrite andb_false_r].
    apply outside_present in H. by rewrite H.
Qed.

Lemma missing_check03 c (D : DataFrame) :
  missing c (check03_row <$> D) = missing c D.
Proof.
  rewrite !missing_count, count_fmap. apply count_ext. intros r.
  unfold compose. rewrite check03_cell.
  destruct (swapped r) eqn:H; [|done].
  apply flt_present in H as [Ha Hb]. destruct c; simpl; congruence.
Qed.

Lemma missing_check04 c (D : DataFrame) :
  missing c (check04_row <$> D)
  = missing c D + match c with
                  | MaxTemp | MinTemp => count range_fail D
                  | Precip | WindSpeed => 0
                  end.
Proof.
  rewrite !missing_count, count_fmap.
  assert (∀ r, range_fail r = true →
               isna (max_temp r) = false ∧ isna (min_temp r) = false) as Hp.
  { intros r H. apply range_fail_present in H.
    apply andb_true_iff in H as [Ha Hb].
    by destruct (isna (max_temp r)), (isna (min_temp r)). }
  destruct c.
  - rewrite Nat.add_0_r. apply count_ext. intros r. unfold compose.
    rewrite check04_cell. by destruct (range_fail r).
  - apply count_disjoint_or; intros r; unfold compose.
    + rewrite check04_cell.
      destruct (range_fail r); [by rewrite orb_true_r|by rewrite orb_false_r].
    + destruct (range_fail r) eqn:H; [|by rewrite andb_false_r].
      destruct (Hp r H) as [Ha _]. cbn [cell]. by rewrite Ha.
  - apply count_disjoint_or; intros r; unfold compose.
    + rewrite check04_cell.
      destruct (range_fail r); [by rewrite orb_true_r|by rewrite orb_false_r].
    + destruct (range_fail r) eqn:H; [|by rewrite andb_false_r].
      destruct (Hp r H) as [_ Hb]. cbn [cell]. by rewrite Hb.
  - rewrite Nat.add_0_r. apply count_ext. intros r. unfold compose.
    rewrite check04_cell. by destruct (range_fail r).
Qed.

End Accounting.

(** X5.  After the four checks of the driver on the table of the loader, the
    number of missing values of a column is the number it had in the input,
    plus the number of cells equal to -999 in the input, plus the counts of
    the column in rows "2. Gross Error" and "4. Range Fail". *)
Theorem missing_accounting (D : DataFrame) (c : Column) :
  let out := run_checks D zero_ledger in
  ∃ g f, iloc 1 (pos c) out.2 = Some g
       ∧ iloc 3 (pos c) out.2 = Some f
       ∧ missing c out.1
         = missing c D + count no_data (getitem c D) + g + f.
Proof.
  cbn zeta. rewrite run_checks_eq. cbn [fst snd].
  rewrite missing_check04, missing_check03, missing_check02, missing_check01.
  set (D1 := row_map check01_cell <$> D).
  set (D2 := check02_row <$> D1).
  set (D3 := check03_row <$> D2).
  exists (count (λ r, outside c (cell c r)) D1).
  exists (match c with
          | MaxTemp | MinTemp => count range_fail D3
          | Precip | WindSpeed => 0
          end).
  split; [by destruct c|]. split; [by destruct c|]. reflexivity.
Qed.

(** X4.  Checks 3 and 4 leave the precipitation and wind speed columns as
    they are, and Check 3 leaves the number of missing values of every
    column unchanged. *)
Theorem temperature_checks_scope (D : DataFrame) (L : Ledger) (c : Column) :
  getitem Precip (Check03_TmaxTminSwapped D L).1 = getitem Precip D
  ∧ getitem WindSpeed (Check03_TmaxTminSwapped D L).1 = getitem WindSpeed D
  ∧ getitem Precip (Check04_TmaxTminRange D L).1 = getitem Precip D
  ∧ getitem WindSpeed (Check04_TmaxTminRange D L).1 = getitem WindSpeed D
  ∧ missing c (Check03_TmaxTminSwapped D L).1 = missing c D.
Proof.
  rewrite Check03_eq, Check04_eq. cbn [fst]. unfold getitem.
  rewrite <- !list_fmap_compose.
  repeat split; try apply missing_check03;
    apply list_fmap_ext; intros i r _; unfold compose;
    first [ by rewrite check03_cell; destruct (swapped r)
          | by rewrite check04_cell; destruct (range_fail r) ].
Qed.

(** ** Each check on its own output *)

Section Rerun.

Lemma check02_outside c r : outside c (cell c (check02_row r)) = false.
Proof.
  rewrite check02_cell.
  destruct (outside c (cell c r)) eqn:H; [by destruct c|exact H].
Qed.

Lemma check02_row_idem r : check02_row (check02_row r) = check02_row r.
Proof.
  apply row_ext. intros c. rewrite (check02_cell c (check02_row r)).
  by rewrite check02_outside.
Qed.

Lemma check03_swapped r : swapped (check03_row r) = false.
Proof.
  unfold check03_row. destruct (swapped r) eqn:H; [|exact H].
  unfold swapped in *. cbn [max_temp min_temp]. by apply flt_asym.
Qed.

Lemma check03_row_idem r : check03_row (check03_row r) = check03_row r.
Proof. unfold check03_row at 1. by rewrite check03_swapped. Qed.

Lemma check04_range_fail r : range_fail (check04_row r) = false.
Proof.
  unfold check04_row. destruct (range_fail r) eqn:H; [reflexivity|exact H].
Qed.

Lemma check04_row_idem r : check04_row (check04_row r) = check04_row r.
Proof. unfold check04_row at 1. by rewrite check04_range_fail. Qed.

Lemma fmap_idem {A} (f : A → A) (l : list A) :
  (∀ x, f (f x) = f x) → f <$> (f <$> l) = f <$> l.
Proof.
  intros H. rewrite <- list_fmap_compose. apply list_fmap_ext.
  intros i x _. apply H.
Qed.

End Rerun.

(** X7.  Each of Checks 2, 3 and 4, applied again to the frame and the table
    it returned, returns the same frame and overwrites its counts with 0:
    the counts of a check are those of its last application, not a running
    total. *)
Theorem check_rerun_resets_counts (D : DataFrame) (L : Ledger) :
  shape L = [4; 4; 4; 4] →
  (let once := Check02_GrossErrors D L in
   let twice := Check02_GrossErrors once.1 once.2 in
   twice.1 = once.1 ∧ ∀ c, iloc 1 (pos c) twice.2 = Some 0)
  ∧ (let once := Check03_TmaxTminSwapped D L in
     let twice := Check03_TmaxTminSwapped once.1 once.2 in
     twice.1 = once.1
     ∧ iloc 2 (pos MaxTemp) twice.2 = Some 0
     ∧ iloc 2 (pos MinTemp) twice.2 = Some 0)
  ∧ (let once := Check04_TmaxTminRange D L in
     let twice := Check04_TmaxTminRange once.1 once.2 in
     twice.1 = once.1
     ∧ iloc 3 (pos MaxTemp) twice.2 = Some 0
     ∧ iloc 3 (pos MinTemp) twice.2 = Some 0).
Proof.
  intros HL. cbn zeta. split; [|split].
  - rewrite !Check02_eq. cbn [fst snd].
    split; [by apply fmap_idem, check02_row_idem|].
    assert (∀ c lo hi, spec_range c = (lo, hi) →
                       count (gross c lo hi) (check02_row <$> D) = 0) as HG.
    { intros c lo hi Hr. rewrite count_fmap. apply count_none. intros r.
      unfold compose. pose proof (check02_outside c r) as H.
      unfold outside in H. by rewrite Hr in H. }
    rewrite (HG Precip 0%Z 25%Z eq_refl), (HG MaxTemp (-25)%Z 35%Z eq_refl),
      (HG MinTemp (-25)%Z 35%Z eq_refl), (HG WindSpeed 0%Z 10%Z eq_refl).
    intros c. destruct c; cbn [pos]; by ledger_read.
  - rewrite !Check03_eq. cbn [fst snd pos].
    split; [by apply fmap_idem, check03_row_idem|].
    assert (count swapped (check03_row <$> D) = 0) as ->.
    { rewrite count_fmap. apply count_none. intros r. apply check03_swapped. }
    split; by ledger_read.
  - rewrite !Check04_eq. cbn [fst snd pos].
    split; [by apply fmap_idem, check04_row_idem|].
    assert (count range_fail (check04_row <$> D) = 0) as ->.
    { rewrite count_fmap. apply count_none. intros r. apply check04_range_fail. }
    split; by ledger_read.
Qed.

Lemma check_rerun_resets_counts_witness :
  shape zero_ledger = [4; 4; 4; 4]
  ∧ iloc 2 (pos MaxTemp)
      (Check03_TmaxTminSwapped
         (Check03_TmaxTminSwapped sample_frame zero_ledger).1
         (Check03_TmaxTminSwapped sample_frame zero_ledger).2).2 = Some 0.
Proof.
  split; [reflexivity|].
  exact (proj1 (proj2 (proj1 (proj2
    (check_rerun_resets_counts sample_frame zero_ledger eq_refl))))).
Defined.

(** ** The table after the driver *)

(** X8.  After the four checks of the driver on the table of the loader, the
    table still has four rows of four counts, and no count exceeds the
    number of rows of the frame. *)
Theorem ledger_counts_bounded (D : DataFrame) :
  let out := run_checks D zero_ledger in
  length out.1 = length D
  ∧ shape out.2 = [4; 4; 4; 4]
  ∧ ∀ r c, r < 4 → c < 4 → ∃ n, iloc r c out.2 = Some n ∧ n ≤ length D.
Proof.
  cbn zeta. split; [by rewrite run_checks_frame, length_fmap|].
  rewrite run_checks_eq. cbn [snd].
  set (D1 := row_map check01_cell <$> D).
  set (D2 := check02_row <$> D1).
  set (D3 := check03_row <$> D2).
  assert (length D1 = length D) as H1 by (unfold D1; by rewrite length_fmap).
  assert (length D2 = length D) as H2 by (unfold D2; by rewrite length_fmap).
  assert (length D3 = length D) as H3 by (unfold D3; by rewrite length_fmap).
  split; [by rewrite !shape_iloc_set|].
  pose proof (count_le_length (gross Precip 0 25) D1).
  pose proof (count_le_length (gross MaxTemp (-25) 35) D1).
  pose proof (count_le_length (gross MinTemp (-25) 35) D1).
  pose proof (count_le_length (gross WindSpeed 0 10) D1).
  pose proof (count_le_length swapped D2).
  pose proof (count_le_length range_fail D3).
  intros r c Hr Hc.
  destruct r as [|[|[|[|r]]]]; [| | | |lia];
    destruct c as [|[|[|[|c]]]]; try lia;
    eexists; (split; [reflexivity|lia]).
Qed.

Lemma ledger_counts_bounded_witness :
  ∃ n, iloc 1 3 (run_checks sample_frame zero_ledger).2 = Some n
       ∧ n ≤ length sample_frame.
Proof.
  exact (proj2 (proj2 (ledger_counts_bounded sample_frame)) 1 3
           ltac:(lia) ltac:(lia)).
Defined.

(** ** Where the corrected values come from *)

Section Provenance.

Lemma main_eq (read_csv : string → option DataFrame) :
  main read_csv
  = (λ D, ((run_checks D zero_ledger).1, D, (run_checks D zero_ledger).2))
      <$> read_csv "DataQualityChecking.txt".
Proof.
  unfold main, ReadData.
  destruct (read_csv _) as [D|]; [|reflexivity]. cbn.
  by destruct (run_checks D zero_ledger).
Qed.

Lemma pipeline_row_provenance c r :
  cell c (pipeline_row r) = nan
  ∨ cell c (pipeline_row r) = cell c r
  ∨ cell c (pipeline_row r) = cell (swap_col c) r.
Proof.
  assert (∀ c' r', cell c' (row_map check01_cell r') = nan
                   ∨ cell c' (row_map check01_cell r') = cell c' r') as S1.
  { intros c' r'. rewrite cell_row_map. unfold check01_cell.
    destruct (no_data _); auto. }
  assert (∀ c' r', cell c' (check02_row r') = nan
                   ∨ cell c' (check02_row r') = cell c' r') as S2.
  { intros c' r'. rewrite check02_cell. destruct (outside _ _); auto. }
  assert (∀ r', cell c (check04_row r') = nan
                ∨ cell c (check04_row r') = cell c r') as S4.
  { intros r'. rewrite check04_cell. destruct (range_fail _); [|auto].
    destruct c; auto. }
  unfold pipeline_row.
  destruct (S4 (check03_row (check02_row (row_map check01_cell r))))
    as [->| ->]; [auto|].
  rewrite check03_cell. destruct (swapped _).
  - destruct (S2 (swap_col c) (row_map check01_cell r)) as [->| ->]; [auto|].
    destruct (S1 (swap_col c) r) as [->| ->]; auto.
  - destruct (S2 c (row_map check01_cell r)) as [->| ->]; [auto|].
    destruct (S1 c r) as [->| ->]; auto.
Qed.

End Provenance.

(** X6.  When the driver's loads succeed, the frame kept as the original is
    the frame of the file, the corrected frame has as many rows, and every
    cell of a corrected row is [nan], or the cell of the original row in the
    same column, or, for a temperature, the other temperature of the
    original row: the checks never put a new value in the frame. *)
Theorem main_values_from_original (read_csv : string → option DataFrame)
    (CorrectedDataDF OriginalDataDF : DataFrame) (ReplacedValuesDF : Ledger) :
  main read_csv = Some (CorrectedDataDF, OriginalDataDF, ReplacedValuesDF) →
  read_csv "DataQualityChecking.txt" = Some OriginalDataDF
  ∧ length CorrectedDataDF = length OriginalDataDF
  ∧ ∀ i r0, OriginalDataDF !! i = Some r0 →
      ∃ r, CorrectedDataDF !! i = Some r
         ∧ ∀ c, cell c r = nan ∨ cell c r = cell c r0
                ∨ cell c r = cell (swap_col c) r0.
Proof.
  rewrite main_eq. destruct (read_csv _) as [D|]; [|discriminate].
  cbn [fmap option_fmap option_map].
  remember (run_checks D zero_ledger) as out eqn:Hout.
  intros [= <- <- <-]. split; [done|].
  rewrite Hout, run_checks_frame. split; [by rewrite length_fmap|].
  intros i r0 Hr. exists (pipeline_row r0). rewrite list_lookup_fmap, Hr.
  split; [done|]. intros c. apply pipeline_row_provenance.
Qed.

Lemma main_values_from_original_witness :
  main (only_data_file sample_frame)
    = Some ((run_checks sample_frame zero_ledger).1, sample_frame,
            (run_checks sample_frame zero_ledger).2)
  ∧ length (run_checks sample_frame zero_ledger).1 = length sample_frame.
Proof.
  split; [reflexivity|].
  exact (proj1 (proj2
    (main_values_from_original (only_data_file sample_frame) _ _ _ eq_refl))).
Defined.

(** ** Check 1: the frame, and the statements after the return *)

(** X10.  Check 1 keeps the rows in place and returns the table it received.
    In every row, a cell that is exactly the binary64 value -999 becomes
    [nan] and every other cell is unchanged; the number of cells changed in
    a column is the number of cells equal to -999. *)
Theorem Check01_frame_effect (D : DataFrame) (L : Ledger) :
  let D' := (Check01_RemoveNoDataValues D L).1 in
  length D' = length D
  ∧ (Check01_RemoveNoDataValues D L).2 = L
  ∧ (∀ i r, D !! i = Some r →
       ∃ r', D' !! i = Some r'
         ∧ ∀ c, cell c r'
                = if decide (cell c r = of_int (-999)) then nan else cell c r)
  ∧ ∀ c, col_mutations c D D'
         = count (λ x, bool_decide (x = of_int (-999))) (getitem c D).
Proof.
  cbn zeta. rewrite Check01_eq. cbn [fst snd].
  split; [by rewrite length_fmap|]. split; [done|]. split.
  - intros i r Hr. exists (row_map check01_cell r).
    rewrite list_lookup_fmap, Hr. split; [done|]. intros c.
    rewrite cell_row_map. unfold check01_cell.
    destruct (no_data (cell c r)) eqn:H.
    + apply no_data_spec in H. by rewrite decide_True.
    + rewrite decide_False; [done|]. intros Hc%no_data_spec. congruence.
  - intros c. pose proof (Check01_mutations D L c) as H.
    rewrite Check01_eq in H. cbn [fst] in H. rewrite H.
    apply count_ext. intros x. destruct (no_data x) eqn:Hx.
    + apply no_data_spec in Hx. by rewrite bool_decide_eq_true_2.
    + rewrite bool_decide_eq_false_2; [done|]. intros Hc%no_data_spec. congruence.
Qed.

Lemma Check01_frame_effect_witness :
  sample_frame !! 0
    = Some (mkRow (of_int (-999)) (of_int 10) (of_int 20) (of_int 5))
  ∧ ∃ r', (Check01_RemoveNoDataValues sample_frame zero_ledger).1 !! 0 = Some r'
          ∧ ∀ c, cell c r'
                 = if decide (cell c (mkRow (of_int (-999)) (of_int 10)
                                        (of_int 20) (of_int 5)) = of_int (-999))
                   then nan
                   else cell c (mkRow (of_int (-999)) (of_int 10)
                                  (of_int 20) (of_int 5)).
Proof.
  split; [reflexivity|].
  exact (proj1 (proj2 (proj2 (Check01_frame_effect sample_frame zero_ledger)))
           0 _ eq_refl).
Defined.

(** X9.  The statements of Check 1 after its return, were they run on the
    frame that the replacement leaves, would keep the frame and write in
    row "1. No Data", for every column, the number of values missing in the
    input plus the number of cells equal to -999, leaving the other rows
    as they are: they count every missing value, not the replaced ones
    only. *)
Theorem Check01_after_return_counts (D : DataFrame) (L : Ledger) :
  shape L = [4; 4; 4; 4] →
  let D1 := (Check01_RemoveNoDataValues D L).1 in
  let out := Check01_after_return D1 L in
  out.1 = D1
  ∧ (∀ c, iloc 0 (pos c) out.2
          = Some (missing c D + count no_data (getitem c D)))
  ∧ ∀ j, j ≠ 0 → out.2 !! j = L !! j.
Proof.
  intros HL. cbn zeta. rewrite Check01_eq. cbn [fst].
  unfold Check01_after_return. cbn [fst snd foldl seq lookup list_lookup columns].
  split; [done|]. split.
  - intros c. rewrite <- missing_check01. unfold missing.
    destruct c; cbn [pos]; by ledger_read.
  - intros j Hj. by rewrite !iloc_set_other_row.
Qed.

Lemma Check01_after_return_counts_witness :
  shape zero_ledger = [4; 4; 4; 4]
  ∧ iloc 0 (pos MaxTemp)
      (Check01_after_return
         (Check01_RemoveNoDataValues sample_frame zero_ledger).1 zero_ledger).2
    = Some 1.
Proof.
  split; [reflexivity|].
  exact (proj1 (proj2
    (Check01_after_return_counts sample_frame zero_ledger eq_refl)) MaxTemp).
Defined.
